(** * process_fep_benchmark.py: the benchmark summary script

    A shallow embedding of [main] of
    [analysis_scripts/process_fep_benchmark.py].  The script collects result
    files from the immediate subdirectories of a directory, hands them to the
    [analysis_functions] module ([af] in the source), subtracts the compound
    count of one thrombin data set from that of another, prints a summary and,
    on request, one table per subdirectory.

    The embedding keeps the shape of the source: the argparse namespace is a
    record, the results dictionary is a finite map from keys to Python lists,
    local variables that the source may leave unassigned carry an explicit
    [Unbound] state, and the effects (directory queries, calls into [af],
    printed lines, raised exceptions) are threaded through a small monad that
    records every effect in order. *)

From Stdlib Require Import ZArith List Ascii Bool Lia.
From stdpp Require Import base gmap list strings.

Local Open Scope Z_scope.

(** ** Python values and exceptions *)

(** The exceptions [main] can end with.  Reading a local variable that was
    never assigned raises [UnboundLocalError], which Python declares as a
    subclass of [NameError]. *)
Inductive exn :=
| UnboundLocalError (var : string)
| KeyError (key : string)
| IndexError
| TypeError
| PyException (msg : string)
| CollaboratorError (tag : string).

Definition is_NameError (e : exn) : bool :=
  match e with
  | UnboundLocalError _ => true
  | _ => false
  end.

Inductive outcome (A : Type) :=
| Return (a : A)
| Raise (e : exn).
Arguments Return {A} a.
Arguments Raise {A} e.

Definition obind {A B} (o : outcome A) (k : A -> outcome B) : outcome B :=
  match o with
  | Return a => k a
  | Raise e => Raise e
  end.

(** The command line after [parser.parse_args]: [-e] has
    [choices=['fmp', 'csv']] and no default, so [args.ext] is one of the two
    choices or [None]. *)
Inductive Ext := fmp | csv.

Record Args := {
  upper_dir : string;
  ext : option Ext;
  latex_tables : bool
}.

(** What an f-string renders for [{args.ext}]. *)
Definition ext_str (e : option Ext) : string :=
  match e with
  | Some fmp => "fmp"
  | Some csv => "csv"
  | None => "None"
  end.

Definition throm_name_waterset : string := "throm_nozob_hip75_sbmcorr_out".
Definition throm_name_jacsset : string := "thrombin_core_out".

(** The two index variables of [main] hold whatever the scanning loop last
    assigned; before the first assignment they are unbound. *)
Inductive ind_val :=
| INone
| IInt (i : nat).

Inductive local :=
| Unbound
| Bound (v : ind_val).

Record locals := {
  throm_name_waterset_ind : local;
  throm_name_jacsset_ind : local
}.

Definition no_locals : locals :=
  {| throm_name_waterset_ind := Unbound; throm_name_jacsset_ind := Unbound |}.

Definition read_local (var : string) (l : local) : outcome ind_val :=
  match l with
  | Unbound => Raise (UnboundLocalError var)
  | Bound v => Return v
  end.

Definition is_not_None (v : ind_val) : bool :=
  match v with
  | INone => false
  | IInt _ => true
  end.

Section Results.

(** Floating-point statistics are kept abstract: the script never computes
    on them unless a parser puts them in the compound-count column. *)
Context {Stat : Type}.
Variable float_sub : Stat -> Stat -> Stat.
Variable float_of_int : Z -> Stat.

Inductive pyval :=
| PyStr (s : string)
| PyInt (n : Z)
| PyFloat (x : Stat).

(** The dictionary returned by the parsers: every key maps to a list. *)
Local Abbreviation Results := (gmap string (list pyval)).

(** [name == throm_name_...]: only a string can equal a string. *)
Definition eq_str (v : pyval) (s : string) : bool :=
  match v with
  | PyStr n => String.eqb n s
  | _ => false
  end.

(** Python's binary [-] on the values a results list can hold. *)
Definition py_sub (a b : pyval) : outcome pyval :=
  match a, b with
  | PyInt x, PyInt y => Return (PyInt (x - y))
  | PyInt x, PyFloat y => Return (PyFloat (float_sub (float_of_int x) y))
  | PyFloat x, PyInt y => Return (PyFloat (float_sub x (float_of_int y)))
  | PyFloat x, PyFloat y => Return (PyFloat (float_sub x y))
  | _, _ => Raise TypeError
  end.

(** Lines 88-92: one pass of the loop body, and the loop over
    [enumerate(results['entries'])]. *)
Definition scan_body (i : nat) (name : pyval) (l : locals) : locals :=
  let l1 :=
    if eq_str name throm_name_waterset
    then {| throm_name_waterset_ind := Bound (IInt i);
            throm_name_jacsset_ind := throm_name_jacsset_ind l |}
    else l in
  if eq_str name throm_name_jacsset
  then {| throm_name_waterset_ind := throm_name_waterset_ind l1;
          throm_name_jacsset_ind := Bound (IInt i) |}
  else l1.

Fixpoint scan_entries (i : nat) (names : list pyval) (l : locals) : locals :=
  match names with
  | [] => l
  | name :: rest => scan_entries (S i) rest (scan_body i name l)
  end.

(** [lst[v]] for a list and the value of an index variable. *)
Definition subscript (lst : list pyval) (v : ind_val) : outcome pyval :=
  match v with
  | INone => Raise TypeError
  | IInt i =>
      match lst !! i with
      | Some x => Return x
      | None => Raise IndexError
      end
  end.

Definition store_subscript (lst : list pyval) (v : ind_val) (x : pyval)
  : outcome (list pyval) :=
  match v with
  | INone => Raise TypeError
  | IInt i => if decide (i < length lst)%nat then Return (<[i := x]> lst)
              else Raise IndexError
  end.

Definition getitem (results : Results) (key : string) : outcome (list pyval) :=
  match results !! key with
  | Some lst => Return lst
  | None => Raise (KeyError key)
  end.

(** Line 95:
    [results['number of compounds'][w] -= results['number of compounds'][j]]. *)
Definition subtract_overlap (results : Results) (l : locals) : outcome Results :=
  obind (getitem results "number of compounds") (fun target =>
  obind (read_local "throm_name_waterset_ind" (throm_name_waterset_ind l)) (fun w =>
  obind (subscript target w) (fun a =>
  obind (getitem results "number of compounds") (fun source =>
  obind (read_local "throm_name_jacsset_ind" (throm_name_jacsset_ind l)) (fun j =>
  obind (subscript source j) (fun b =>
  obind (py_sub a b) (fun d =>
  obind (store_subscript target w d) (fun target' =>
  Return (<["number of compounds" := target']> results))))))))).

(** Line 94: [w is not None and j is not None], with [and] evaluating its
    right operand only when the left one is true. *)
Definition guard (l : locals) : outcome bool :=
  obind (read_local "throm_name_waterset_ind" (throm_name_waterset_ind l)) (fun w =>
  if is_not_None w
  then obind (read_local "throm_name_jacsset_ind" (throm_name_jacsset_ind l))
             (fun j => Return (is_not_None j))
  else Return false).

(** Lines 86-95 as a function of the parser's dictionary. *)
Definition correct_overlap (results : Results) : outcome Results :=
  obind (getitem results "entries") (fun names =>
  let l := scan_entries 0 names no_locals in
  obind (guard l) (fun g =>
  if g then subtract_overlap results l else Return results)).

End Results.

(** ** Effects: directory queries, calls into [af], printed lines *)

Section Effects.

Context {Stat FS : Type}.

(** Everything [main] does to the outside world, in the order it does it.
    A call into [af] stands for the call and whatever the callee itself reads
    or prints. *)
Inductive event :=
| Glob (pattern : string)
| Isdir (path : string)
| Parse_fep_data (files : list string)
| Parse_fep_data_from_csv (files : list string)
| Summarize_fep_error (results : gmap string (list (@pyval Stat)))
| Print_latex_table (files : list string)
| Print (line : string).

Record run (A : Type) := Run {
  fs_after : FS;
  events : list event;
  result : outcome A
}.
Arguments Run {A} _ _ _.
Arguments fs_after {A} _.
Arguments events {A} _.
Arguments result {A} _.

Definition M (A : Type) : Type := FS -> run A.

Definition ret {A} (a : A) : M A := fun fs => Run fs [] (Return a).

Definition raise {A} (e : exn) : M A := fun fs => Run fs [] (Raise e).

Definition lift {A} (o : outcome A) : M A := fun fs => Run fs [] o.

Definition bind {A B} (m : M A) (k : A -> M B) : M B :=
  fun fs =>
    let r := m fs in
    match result r with
    | Return a =>
        let r' := k a (fs_after r) in
        Run (fs_after r') (events r ++ events r') (result r')
    | Raise e => Run (fs_after r) (events r) (Raise e)
    end.

End Effects.

Arguments event : clear implicits.
Arguments run : clear implicits.
Arguments M : clear implicits.
Arguments Run {Stat FS A} _ _ _.
Arguments fs_after {Stat FS A} _.
Arguments events {Stat FS A} _.
Arguments result {Stat FS A} _.

Declare Scope prog_scope.
Delimit Scope prog_scope with prog.
Bind Scope prog_scope with M.
Notation "'let*' x ':=' c1 'in' c2" := (bind c1 (fun x => c2))
  (at level 10, x pattern, c1 at level 100, c2 at level 200) : prog_scope.
Notation "c1 ;; c2" := (bind c1 (fun _ => c2))
  (at level 100, c2 at level 200, right associativity) : prog_scope.
Local Open Scope prog_scope.

Section Program.

Context {Stat Diffs FS : Type}.
Variable float_sub : Stat -> Stat -> Stat.
Variable float_of_int : Z -> Stat.

Local Abbreviation Results := (gmap string (list (@pyval Stat))).
Local Abbreviation M := (M Stat FS).
Local Abbreviation event := (event Stat).

(** [glob.glob] and [os.path.isdir] read the file system and leave it as it
    is; which paths a pattern matches is the library's business. *)
Class OS := {
  os_glob : FS -> string -> list string;
  os_isdir : FS -> string -> bool
}.

(** The four functions of [analysis_functions] the script calls.  Each may
    read and change the file system, print, and raise. *)
Class AF := {
  af_parse_fep_data : list string -> FS -> FS * outcome (Results * Diffs);
  af_parse_fep_data_from_csv : list string -> FS -> FS * outcome (Results * Diffs);
  af_summarize_fep_error : Results -> FS -> FS * outcome unit;
  af_print_latex_table : list string -> FS -> FS * outcome unit
}.

Context {os : OS} {af : AF}.

Definition glob (pattern : string) : M (list string) :=
  fun fs => Run fs [Glob pattern] (Return (os_glob fs pattern)).

Definition isdir (path : string) : M bool :=
  fun fs => Run fs [Isdir path] (Return (os_isdir fs path)).

Definition print (line : string) : M unit :=
  fun fs => Run fs [Print line] (Return tt).

Definition call {A} (ev : event) (f : FS -> FS * outcome A) : M A :=
  fun fs => Run (fst (f fs)) [ev] (snd (f fs)).

Definition parse_fep_data (files : list string) : M (Results * Diffs) :=
  call (Parse_fep_data files) (af_parse_fep_data files).

Definition parse_fep_data_from_csv (files : list string) : M (Results * Diffs) :=
  call (Parse_fep_data_from_csv files) (af_parse_fep_data_from_csv files).

Definition summarize_fep_error (results : Results) : M unit :=
  call (Summarize_fep_error results) (af_summarize_fep_error results).

Definition print_latex_table (files : list string) : M unit :=
  call (Print_latex_table files) (af_print_latex_table files).

(** The two patterns the script builds with f-strings. *)
Definition entries_pattern (a : Args) : string := upper_dir a +:+ "/*".

Definition files_pattern (a : Args) (entry : string) : string :=
  entry +:+ "/*" +:+ ext_str (ext a).

Definition dquote : string := String "034"%char EmptyString.

Definition bad_ext_message (a : Args) : string :=
  "Only " +:+ dquote +:+ "fmp" +:+ dquote +:+ " and " +:+ dquote +:+ "csv"
  +:+ dquote +:+ " are accessible file extenstions. You have entered "
  +:+ ext_str (ext a) +:+ ".".

(** Lines 72-75. *)
Fixpoint collect_loop (a : Args) (entries : list string) (files : list string)
  : M (list string) :=
  match entries with
  | [] => ret files
  | entry :: rest =>
      let* d := isdir entry in
      if d
      then let* found := glob (files_pattern a entry) in
           collect_loop a rest (files ++ found)
      else collect_loop a rest files
  end.

Definition collect_files (a : Args) : M (list string) :=
  let* entries := glob (entries_pattern a) in
  collect_loop a entries [].

(** Lines 78-83. *)
Definition parse (a : Args) (files : list string) : M (Results * Diffs) :=
  match ext a with
  | Some fmp => parse_fep_data files
  | Some csv => parse_fep_data_from_csv files
  | None => raise (PyException (bad_ext_message a))
  end.

(** Lines 107-114. *)
Fixpoint latex_loop (a : Args) (entries : list string) : M unit :=
  match entries with
  | [] => ret tt
  | entry :: rest =>
      let* d := isdir entry in
      (if d
       then let* files := glob (files_pattern a entry) in
            if (1 <=? length files)%nat
            then print entry ;; print_latex_table files ;; print EmptyString ;; print EmptyString
            else ret tt
       else ret tt) ;;
      latex_loop a rest
  end.

Definition ext_is_fmp (a : Args) : bool :=
  match ext a with
  | Some fmp => true
  | _ => false
  end.

(** Lines 102-116. *)
Definition latex_section (a : Args) : M unit :=
  if latex_tables a && ext_is_fmp a
  then print "Individual set summaries" ;;
       print "------------------------" ;;
       let* entries := glob (entries_pattern a) in
       latex_loop a entries
  else if latex_tables a && negb (ext_is_fmp a)
  then print "Latex summary tables can only printed for FMP results files."
  else ret tt.

Definition main (a : Args) : M unit :=
  let* files := collect_files a in
  let* (results, diffs) := parse a files in
  let* results := lift (correct_overlap float_sub float_of_int results) in
  print "FEP+ benchmark summary" ;;
  print "-----------------------" ;;
  summarize_fep_error results ;;
  print EmptyString ;;
  latex_section a.

End Program.

Arguments OS : clear implicits.
Arguments AF : clear implicits.

(** ** A small file system and a stand-in for [analysis_functions]

    Enough of a world to run [main]: a table from each directory to the names
    in it, a [glob] for patterns of the shape [dir/*suffix] with a literal
    [dir] (the shape both f-strings produce when no path holds a wildcard
    character), and parsers that name every file after its stem. *)
Module Fixture.

Definition tree := list (string * list string).

Definition chars (s : string) : list ascii := String.list_ascii_of_string s.
Definition text (l : list ascii) : string := String.string_of_list_ascii l.

Definition is_slash (c : ascii) : bool := Ascii.eqb c "/"%char.

(** The part of a path after its last slash, and the part before it. *)
Fixpoint basename_chars (acc l : list ascii) : list ascii :=
  match l with
  | [] => acc
  | c :: r => if is_slash c then basename_chars [] r else basename_chars (acc ++ [c]) r
  end.

Definition basename (p : string) : string := text (basename_chars [] (chars p)).

Definition dirname (p : string) : string :=
  let n := (String.length p - String.length (basename p) - 1)%nat in
  String.substring 0 n p.

Definition ends_with (suffix s : string) : bool :=
  let k := String.length suffix in
  let n := String.length s in
  (k <=? n)%nat && String.eqb (String.substring (n - k) k s) suffix.

Definition hidden (name : string) : bool := String.prefix "." name.

Definition listing (t : tree) (dir : string) : list string :=
  match List.find (fun d => String.eqb (fst d) dir) t with
  | Some d => snd d
  | None => []
  end.

(** [glob] of [dir/*suffix]: the names of [dir] that end in [suffix] and do
    not start with a dot, each joined to [dir]. *)
Definition tree_glob (t : tree) (pattern : string) : list string :=
  let dir := dirname pattern in
  match basename pattern with
  | String "*"%char suffix =>
      map (fun name => dir +:+ "/" +:+ name)
          (List.filter (fun name => negb (hidden name) && ends_with suffix name)
                  (listing t dir))
  | _ => []
  end.

Definition tree_isdir (t : tree) (path : string) : bool :=
  existsb (fun d => String.eqb (fst d) path) t.

#[export] Instance tree_os : OS tree :=
  {| os_glob := tree_glob; os_isdir := tree_isdir |}.

(** The stand-in parsers: one entry per file, named after the file without
    directory and extension, with the length of the name as its compound
    count and one opaque statistic. *)
Definition stem (file : string) : string :=
  let b := basename file in
  String.substring 0 (String.length b - 4) b.

Definition toy_results (files : list string) : gmap string (list (@pyval unit)) :=
  <["entries" := map (fun f => PyStr (stem f)) files]>
  (<["number of compounds" :=
       map (fun f => PyInt (Z.of_nat (String.length (stem f)))) files]>
  (<["rmse" := map (fun _ => PyFloat tt) files]> ∅)).

#[export] Instance toy_af : AF unit unit tree :=
  {| af_parse_fep_data := fun files t => (t, Return (toy_results files, tt));
     af_parse_fep_data_from_csv := fun files t => (t, Return (toy_results files, tt));
     af_summarize_fep_error := fun _ t => (t, Return tt);
     af_print_latex_table := fun _ t => (t, Return tt) |}.

Definition toy_sub (x y : unit) : unit := tt.
Definition toy_of_int (n : Z) : unit := tt.

Definition toy_main (a : Args) (t : tree) : run unit tree unit :=
  main toy_sub toy_of_int a t.

(** A benchmark directory with the two thrombin sets in separate groups, a
    stray file at the top, an empty group, and a file one level too deep. *)
Definition bench : tree :=
  [ ("bench", ["jacs"; "water"; "notes.fmp"; "empty"]);
    ("bench/jacs", ["thrombin_core_out.fmp"; "tyk2_out.fmp"; "readme.txt"]);
    ("bench/water", ["throm_nozob_hip75_sbmcorr_out.fmp"; "deep"]);
    ("bench/water/deep", ["buried_out.fmp"]);
    ("bench/empty", []) ].

(** The same groups with CSV results. *)
Definition bench_csv : tree :=
  [ ("bench", ["jacs"; "water"]);
    ("bench/jacs", ["thrombin_core_out.csv"]);
    ("bench/water", ["throm_nozob_hip75_sbmcorr_out.csv"]) ].

(** A dictionary in which both names come twice. *)
Definition repeated_names : list (@pyval unit) :=
  [ PyStr throm_name_waterset; PyStr throm_name_jacsset;
    PyStr throm_name_waterset; PyStr "tyk2_out"; PyStr throm_name_jacsset ].

Definition repeated_counts : list (@pyval unit) :=
  [ PyInt 5; PyInt 3; PyInt 40; PyInt 7; PyInt 11 ].

Definition repeated_results : gmap string (list (@pyval unit)) :=
  <["entries" := repeated_names]>
  (<["number of compounds" := repeated_counts]> ∅).

Definition args_fmp : Args :=
  {| upper_dir := "bench"; ext := Some fmp; latex_tables := false |}.
Definition args_fmp_tables : Args :=
  {| upper_dir := "bench"; ext := Some fmp; latex_tables := true |}.
Definition args_csv_tables : Args :=
  {| upper_dir := "bench"; ext := Some csv; latex_tables := true |}.
Definition args_no_ext : Args :=
  {| upper_dir := "bench"; ext := None; latex_tables := true |}.

(** Collaborators with scripted answers: the parser's, the summary's and
    the table printer's, each for any arguments. *)
Definition scripted_af (parsed : outcome (gmap string (list (@pyval unit)) * unit))
           (summarized printed : outcome unit) : AF unit unit tree :=
  {| af_parse_fep_data := fun _ t => (t, parsed);
     af_parse_fep_data_from_csv := fun _ t => (t, parsed);
     af_summarize_fep_error := fun _ t => (t, summarized);
     af_print_latex_table := fun _ t => (t, printed) |}.

(** Dictionaries a parser should not return, one per way the correction
    can fail. *)
Definition no_entries_results : gmap string (list (@pyval unit)) :=
  <["number of compounds" := repeated_counts]> ∅.

Definition no_counts_results : gmap string (list (@pyval unit)) :=
  <["entries" := repeated_names]> ∅.

Definition short_counts_results : gmap string (list (@pyval unit)) :=
  <["entries" := repeated_names]>
  (<["number of compounds" := [PyInt 5; PyInt 3; PyInt 40]]> ∅).

Definition text_counts_results : gmap string (list (@pyval unit)) :=
  <["entries" := repeated_names]>
  (<["number of compounds" :=
       [PyInt 5; PyInt 3; PyInt 40; PyInt 7; PyStr "eleven"]]> ∅).

Definition only_water_results : gmap string (list (@pyval unit)) :=
  <["entries" := [PyStr throm_name_waterset; PyStr "tyk2_out"]]>
  (<["number of compounds" := [PyInt 40; PyInt 7]]> ∅).

(** A directory that holds result files but no group directories. *)
Definition loose_files : tree :=
  [ ("bench", ["thrombin_core_out.fmp"; "tyk2_out.fmp"]) ].

End Fixture.

(** ** What the claims speak about, said on the model *)

Section Vocabulary.

Context {Stat Diffs FS : Type}.
Context {os : OS FS} {af : AF Stat Diffs FS}.

Local Abbreviation Results := (gmap string (list (@pyval Stat))).

(** The files matching [entry/*ext] over the directories among the matches
    of [upper_dir/*], in the order the library lists them. *)
Definition collected (fs : FS) (a : Args) : list string :=
  flat_map (fun entry =>
              if os_isdir fs entry then os_glob fs (files_pattern a entry) else [])
           (os_glob fs (entries_pattern a)).

(** The directory queries of the collecting loop. *)
Definition collect_events (fs : FS) (a : Args) (entries : list string)
  : list (event Stat) :=
  flat_map (fun entry =>
              Isdir entry ::
              if os_isdir fs entry then [Glob (files_pattern a entry)] else [])
           entries.

Definition collection_trace (fs : FS) (a : Args) : list (event Stat) :=
  Glob (entries_pattern a) :: collect_events fs a (os_glob fs (entries_pattern a)).

(** The parser chosen by the extension, and the event its call leaves. *)
Definition af_parse (x : Ext) : list string -> FS -> FS * outcome (Results * Diffs) :=
  match x with
  | fmp => af_parse_fep_data
  | csv => af_parse_fep_data_from_csv
  end.

Definition parse_event (x : Ext) (files : list string) : event Stat :=
  match x with
  | fmp => Parse_fep_data files
  | csv => Parse_fep_data_from_csv files
  end.

Definition is_fs_query (e : event Stat) : bool :=
  match e with
  | Glob _ | Isdir _ => true
  | _ => false
  end.

Definition is_parse_call (e : event Stat) : bool :=
  match e with
  | Parse_fep_data _ | Parse_fep_data_from_csv _ => true
  | _ => false
  end.

Definition is_summarize_call (e : event Stat) : bool :=
  match e with
  | Summarize_fep_error _ => true
  | _ => false
  end.

Definition is_table_call (e : event Stat) : bool :=
  match e with
  | Print_latex_table _ => true
  | _ => false
  end.

Definition summary_title : string := "FEP+ benchmark summary".
Definition summary_rule : string := "-----------------------".
Definition tables_title : string := "Individual set summaries".
Definition tables_rule : string := "------------------------".
Definition notice : string :=
  "Latex summary tables can only printed for FMP results files.".

(** The index of the last element of [names] equal to the string [s]. *)
Fixpoint last_index (s : string) (names : list (@pyval Stat)) : option nat :=
  match names with
  | [] => None
  | name :: rest =>
      match last_index s rest with
      | Some k => Some (S k)
      | None => if eq_str name s then Some 0%nat else None
      end
  end.

(** The four steps of a run, and the events each step may leave.  A trace is
    in order when every event belongs to the current step or opens the next
    one: directory queries, then the one parser call, then the summary with
    its one call to [summarize_fep_error], then the tables. *)
Inductive step := Collecting | Parsed | Summarized.

Definition advance (s : step) (e : event Stat) : option step :=
  match s, e with
  | Collecting, (Glob _ | Isdir _) => Some Collecting
  | Collecting, (Parse_fep_data _ | Parse_fep_data_from_csv _) => Some Parsed
  | Parsed, Print _ => Some Parsed
  | Parsed, Summarize_fep_error _ => Some Summarized
  | Summarized, (Print _ | Glob _ | Isdir _ | Print_latex_table _) => Some Summarized
  | _, _ => None
  end.

Fixpoint in_order (s : step) (evs : list (event Stat)) : bool :=
  match evs with
  | [] => true
  | e :: rest =>
      match advance s e with
      | Some s' => in_order s' rest
      | None => false
      end
  end.

(** What the table loop leaves for one entry of [upper_dir/*]: nothing but
    the queries unless the entry is a directory with a matching file, and
    then its path, the table of its files and two blank lines. *)
Definition table_block (fs : FS) (a : Args) (entry : string) : list (event Stat) :=
  Isdir entry ::
  if os_isdir fs entry
  then Glob (files_pattern a entry) ::
       match os_glob fs (files_pattern a entry) with
       | [] => []
       | files =>
           [Print entry; Print_latex_table files;
            Print EmptyString; Print EmptyString]
       end
  else [].

(** The part of [main] after the correction. *)
Definition report (a : Args) (results : Results) : M Stat FS unit :=
  (print summary_title ;;
   print summary_rule ;;
   summarize_fep_error results ;;
   print EmptyString ;;
   latex_section a)%prog.

(** A run with some earlier events put in front. *)
Definition after {A} (evs : list (event Stat)) (r : run Stat FS A) : run Stat FS A :=
  Run (fs_after r) (evs ++ events r) (result r).

(** Events that may follow the call to [summarize_fep_error]. *)
Definition is_table_event (e : event Stat) : bool :=
  match e with
  | Print _ | Glob _ | Isdir _ | Print_latex_table _ => true
  | _ => false
  end.

(** The functions of [analysis_functions] leave the file system as it is. *)
Definition af_read_only : Prop :=
  (forall x files fs, fst (af_parse x files fs) = fs) /\
  (forall results fs, fst (af_summarize_fep_error results fs) = fs) /\
  (forall files fs, fst (af_print_latex_table files fs) = fs).

(** The files of all calls to [print_latex_table], in order. *)
Definition table_files (evs : list (event Stat)) : list string :=
  flat_map (fun e => match e with
                     | Print_latex_table files => files
                     | _ => []
                     end) evs.

(** The sum of the integers of a list of counts. *)
Definition count_total (counts : list (@pyval Stat)) : Z :=
  fold_right (fun v acc => match v with
                           | PyInt n => n + acc
                           | _ => acc
                           end) 0 counts.



End Vocabulary.

(** ** Running the model: the monad and the loops *)

Section Runs.

Context {Stat Diffs FS : Type}.
Variable float_sub : Stat -> Stat -> Stat.
Variable float_of_int : Z -> Stat.
Context {os : OS FS} {af : AF Stat Diffs FS}.

Local Abbreviation Results := (gmap string (list (@pyval Stat))).

Lemma bind_Return {A B} (m : M Stat FS A) (k : A -> M Stat FS B)
      (fs fs1 : FS) (evs : list (event Stat)) (v : A) :
  m fs = Run fs1 evs (Return v) ->
  bind m k fs =
  Run (fs_after (k v fs1)) (evs ++ events (k v fs1)) (result (k v fs1)).
Proof. intros H. unfold bind. rewrite H. reflexivity. Qed.

Lemma bind_Raise {A B} (m : M Stat FS A) (k : A -> M Stat FS B)
      (fs fs1 : FS) (evs : list (event Stat)) (e : exn) :
  m fs = Run fs1 evs (Raise e) ->
  bind m k fs = Run fs1 evs (Raise e).
Proof. intros H. unfold bind. rewrite H. reflexivity. Qed.

Lemma collect_loop_run (a : Args) (fs : FS) (entries files : list string) :
  collect_loop (Stat := Stat) a entries files fs =
  Run fs (collect_events fs a entries)
      (Return (files ++
               flat_map (fun entry =>
                           if os_isdir fs entry
                           then os_glob fs (files_pattern a entry) else [])
                        entries)).
Proof.
  revert files. induction entries as [|entry rest IH]; intros files.
  - simpl. unfold ret. now rewrite app_nil_r.
  - simpl. unfold bind at 1. simpl.
    destruct (os_isdir fs entry) eqn:Hd.
    + unfold bind at 1. simpl. rewrite IH. simpl.
      now rewrite <- app_assoc.
    + rewrite IH. simpl. reflexivity.
Qed.

Lemma collect_files_run (a : Args) (fs : FS) :
  collect_files (Stat := Stat) a fs =
  Run fs (collection_trace fs a) (Return (collected fs a)).
Proof.
  unfold collect_files, bind. simpl. rewrite collect_loop_run. reflexivity.
Qed.

Lemma parse_run (a : Args) (x : Ext) (files : list string) (fs : FS) :
  ext a = Some x ->
  parse a files fs =
  Run (fst (af_parse x files fs)) [parse_event x files] (snd (af_parse x files fs)).
Proof.
  intros Hx. unfold parse. rewrite Hx. destruct x; reflexivity.
Qed.

Lemma report_run (a : Args) (results : Results) (fs : FS) :
  report a results fs =
  let s := af_summarize_fep_error results fs in
  match snd s with
  | Raise e =>
      Run (fst s)
          [Print summary_title; Print summary_rule; Summarize_fep_error results]
          (Raise e)
  | Return _ =>
      let r := latex_section a (fst s) in
      Run (fs_after r)
          ([Print summary_title; Print summary_rule; Summarize_fep_error results;
            Print EmptyString] ++ events r)
          (result r)
  end.
Proof.
  unfold report, bind, print, summarize_fep_error, call. simpl.
  destruct (snd (af_summarize_fep_error results fs)); reflexivity.
Qed.

(** [main] unfolded along its four ways to end before the report. *)
Lemma main_no_ext (a : Args) (fs : FS) :
  ext a = None ->
  main float_sub float_of_int a fs = Run fs (collection_trace fs a) (Raise (PyException (bad_ext_message a))).
Proof.
  intros Hx. unfold main, bind. rewrite collect_files_run. simpl.
  unfold parse. rewrite Hx. simpl. now rewrite app_nil_r.
Qed.

Lemma main_parser_raises (a : Args) (x : Ext) (fs : FS) (e : exn) :
  ext a = Some x ->
  snd (af_parse x (collected fs a) fs) = Raise e ->
  main float_sub float_of_int a fs =
  Run (fst (af_parse x (collected fs a) fs))
      (collection_trace fs a ++ [parse_event x (collected fs a)]) (Raise e).
Proof.
  intros Hx Hp. unfold main, bind. rewrite collect_files_run. simpl.
  rewrite (parse_run a x _ _ Hx). simpl. rewrite Hp. reflexivity.
Qed.

Lemma main_correction_raises (a : Args) (x : Ext) (fs : FS)
      (raw : Results) (d : Diffs) (e : exn) :
  ext a = Some x ->
  snd (af_parse x (collected fs a) fs) = Return (raw, d) ->
  correct_overlap float_sub float_of_int raw = Raise e ->
  main float_sub float_of_int a fs =
  Run (fst (af_parse x (collected fs a) fs))
      (collection_trace fs a ++ [parse_event x (collected fs a)]) (Raise e).
Proof.
  intros Hx Hp Hc. unfold main, bind. rewrite collect_files_run. simpl.
  rewrite (parse_run a x _ _ Hx). simpl. rewrite Hp. simpl.
  unfold lift. simpl. rewrite Hc. reflexivity.
Qed.

Lemma main_reports (a : Args) (x : Ext) (fs : FS)
      (raw res : Results) (d : Diffs) :
  ext a = Some x ->
  snd (af_parse x (collected fs a) fs) = Return (raw, d) ->
  correct_overlap float_sub float_of_int raw = Return res ->
  main float_sub float_of_int a fs =
  let r := report a res (fst (af_parse x (collected fs a) fs)) in
  Run (fs_after r)
      (collection_trace fs a ++ parse_event x (collected fs a) :: events r)
      (result r).
Proof.
  intros Hx Hp Hc.
  change (main float_sub float_of_int a fs) with
    (bind (collect_files a)
       (fun files => bind (parse a files)
          (fun '(results, _) =>
             bind (lift (correct_overlap float_sub float_of_int results))
                  (fun results => report a results))) fs).
  rewrite (bind_Return _ _ _ _ _ _ (collect_files_run a fs)).
  assert (Hparse : parse a (collected fs a) fs =
                   Run (fst (af_parse x (collected fs a) fs))
                       [parse_event x (collected fs a)] (Return (raw, d))).
  { rewrite (parse_run a x _ _ Hx). now rewrite Hp. }
  rewrite (bind_Return _ _ _ _ _ _ Hparse).
  assert (Hlift : forall fs1, lift (FS := FS) (Stat := Stat)
                    (correct_overlap float_sub float_of_int raw) fs1 =
                  Run fs1 [] (Return res)).
  { intros fs1. unfold lift. now rewrite Hc. }
  rewrite (bind_Return _ _ _ _ _ _ (Hlift _)).
  simpl. reflexivity.
Qed.

End Runs.

(** ** The correction as a function of the parser's dictionary *)

Section Correction.

Context {Stat : Type}.
Variable float_sub : Stat -> Stat -> Stat.
Variable float_of_int : Z -> Stat.

Local Abbreviation Results := (gmap string (list (@pyval Stat))).
Local Abbreviation pyval := (@pyval Stat).

Lemma eq_str_true (v : pyval) (s : string) : eq_str v s = true <-> v = PyStr s.
Proof.
  destruct v as [n| |]; simpl; try (split; [discriminate | discriminate]).
  rewrite String.eqb_eq. split; [now intros -> | now intros [= ->]].
Qed.

Lemma last_index_lookup (s : string) (names : list pyval) (k : nat) :
  last_index s names = Some k -> names !! k = Some (PyStr s).
Proof.
  revert k. induction names as [|n r IH]; intros k; simpl; [discriminate |].
  destruct (last_index s r) as [k'|].
  - intros [= <-]. simpl. now apply IH.
  - destruct (eq_str n s) eqn:E; [| discriminate].
    intros [= <-]. simpl. apply eq_str_true in E. now subst.
Qed.

Lemma last_index_None (s : string) (names : list pyval) :
  last_index s names = None <-> PyStr s ∉ names.
Proof.
  induction names as [|n r IH]; simpl.
  - split; [intros _; apply not_elem_of_nil | reflexivity].
  - rewrite not_elem_of_cons. destruct (last_index s r) as [k|] eqn:Hr.
    + split; [discriminate |]. intros [_ Hnot]. apply IH in Hnot. discriminate.
    + destruct (eq_str n s) eqn:E.
      * apply eq_str_true in E. split; [discriminate |]. intros [Hne _]. congruence.
      * split; [| reflexivity]. intros _. split.
        -- intros Hn. symmetry in Hn. apply eq_str_true in Hn. congruence.
        -- now apply IH.
Qed.

Lemma last_index_is_last (s : string) (names : list pyval) (k k' : nat) :
  last_index s names = Some k -> names !! k' = Some (PyStr s) -> (k' <= k)%nat.
Proof.
  revert k k'. induction names as [|n r IH]; intros k k'; simpl; [discriminate |].
  destruct (last_index s r) as [k0|] eqn:Hr.
  - intros [= <-]. destruct k' as [|k']; simpl; [lia |].
    intros H. specialize (IH k0 k' eq_refl H). lia.
  - destruct (eq_str n s); [| discriminate]. intros [= <-].
    destruct k' as [|k']; simpl; [lia |]. intros H. exfalso.
    apply last_index_None in Hr. apply Hr. eapply list_elem_of_lookup_2. exact H.
Qed.

Lemma last_index_found (s : string) (names : list pyval) :
  PyStr s ∈ names -> exists k, last_index s names = Some k.
Proof.
  intros Hin. destruct (last_index s names) as [k|] eqn:E; [now exists k |].
  apply last_index_None in E. contradiction.
Qed.

(** The loop leaves in each index variable the last index at which its name
    was seen, and leaves the variable as it was when the name never came. *)
Lemma scan_entries_waterset (names : list pyval) (i : nat) (l : locals) :
  throm_name_waterset_ind (scan_entries i names l) =
  match last_index throm_name_waterset names with
  | Some k => Bound (IInt (i + k))
  | None => throm_name_waterset_ind l
  end.
Proof.
  revert i l. induction names as [|n r IH]; intros i l; simpl; [reflexivity |].
  rewrite IH. destruct (last_index throm_name_waterset r) as [k|].
  - f_equal. f_equal. lia.
  - unfold scan_body.
    destruct (eq_str n throm_name_waterset), (eq_str n throm_name_jacsset);
      simpl; try reflexivity; f_equal; f_equal; lia.
Qed.

Lemma scan_entries_jacsset (names : list pyval) (i : nat) (l : locals) :
  throm_name_jacsset_ind (scan_entries i names l) =
  match last_index throm_name_jacsset names with
  | Some k => Bound (IInt (i + k))
  | None => throm_name_jacsset_ind l
  end.
Proof.
  revert i l. induction names as [|n r IH]; intros i l; simpl; [reflexivity |].
  rewrite IH. destruct (last_index throm_name_jacsset r) as [k|].
  - f_equal. f_equal. lia.
  - unfold scan_body.
    destruct (eq_str n throm_name_waterset), (eq_str n throm_name_jacsset);
      simpl; try reflexivity; f_equal; f_equal; lia.
Qed.

Lemma guard_found (names : list pyval) (w j : nat) :
  last_index throm_name_waterset names = Some w ->
  last_index throm_name_jacsset names = Some j ->
  guard (scan_entries 0 names no_locals) = Return true.
Proof.
  intros Hw Hj. unfold guard.
  rewrite scan_entries_waterset, scan_entries_jacsset, Hw, Hj. reflexivity.
Qed.

Lemma guard_waterset_unbound (names : list pyval) :
  last_index throm_name_waterset names = None ->
  guard (scan_entries 0 names no_locals) =
  Raise (UnboundLocalError "throm_name_waterset_ind").
Proof.
  intros Hw. unfold guard. rewrite scan_entries_waterset, Hw. reflexivity.
Qed.

Lemma guard_jacsset_unbound (names : list pyval) (w : nat) :
  last_index throm_name_waterset names = Some w ->
  last_index throm_name_jacsset names = None ->
  guard (scan_entries 0 names no_locals) =
  Raise (UnboundLocalError "throm_name_jacsset_ind").
Proof.
  intros Hw Hj. unfold guard.
  rewrite scan_entries_waterset, scan_entries_jacsset, Hw, Hj. reflexivity.
Qed.

Lemma guard_cases (names : list pyval) :
  guard (scan_entries 0 names no_locals) = Return true \/
  exists var, guard (scan_entries 0 names no_locals) = Raise (UnboundLocalError var).
Proof.
  destruct (last_index throm_name_waterset names) as [w|] eqn:Hw.
  - destruct (last_index throm_name_jacsset names) as [j|] eqn:Hj.
    + left. eapply guard_found; eassumption.
    + right. eexists. eapply guard_jacsset_unbound; eassumption.
  - right. eexists. now apply guard_waterset_unbound.
Qed.

(** The subtraction, once both indices are known. *)
Lemma subtract_overlap_found (res : Results) (names counts : list pyval)
      (w j : nat) (a b d : pyval) :
  last_index throm_name_waterset names = Some w ->
  last_index throm_name_jacsset names = Some j ->
  res !! "number of compounds" = Some counts ->
  counts !! w = Some a ->
  counts !! j = Some b ->
  py_sub float_sub float_of_int a b = Return d ->
  subtract_overlap float_sub float_of_int res (scan_entries 0 names no_locals) =
  Return (<["number of compounds" := <[w := d]> counts]> res).
Proof.
  intros Hw Hj Hc Ha Hb Hd. unfold subtract_overlap, getitem.
  rewrite Hc, scan_entries_waterset, scan_entries_jacsset, Hw, Hj. simpl.
  rewrite Ha. simpl. rewrite Hb. simpl. rewrite Hd. simpl.
  destruct (decide (w < length counts)%nat) as [|Hge]; [reflexivity |].
  exfalso. apply Hge. eapply lookup_lt_Some. exact Ha.
Qed.

Lemma correct_overlap_found (res : Results) (names counts : list pyval)
      (w j : nat) (a b d : pyval) :
  res !! "entries" = Some names ->
  res !! "number of compounds" = Some counts ->
  last_index throm_name_waterset names = Some w ->
  last_index throm_name_jacsset names = Some j ->
  counts !! w = Some a ->
  counts !! j = Some b ->
  py_sub float_sub float_of_int a b = Return d ->
  correct_overlap float_sub float_of_int res =
  Return (<["number of compounds" := <[w := d]> counts]> res).
Proof.
  intros He Hc Hw Hj Ha Hb Hd. unfold correct_overlap, getitem. rewrite He. simpl.
  rewrite (guard_found names w j Hw Hj). simpl.
  eapply subtract_overlap_found; eassumption.
Qed.

Lemma correct_overlap_missing (res : Results) (names : list pyval) :
  res !! "entries" = Some names ->
  PyStr throm_name_waterset ∉ names \/ PyStr throm_name_jacsset ∉ names ->
  exists var,
    correct_overlap float_sub float_of_int res = Raise (UnboundLocalError var) /\
    (var = "throm_name_waterset_ind" \/ var = "throm_name_jacsset_ind").
Proof.
  intros He Hmiss. unfold correct_overlap, getitem. rewrite He. simpl.
  destruct (last_index throm_name_waterset names) as [w|] eqn:Hw.
  - destruct (last_index throm_name_jacsset names) as [j|] eqn:Hj.
    + exfalso. destruct Hmiss as [H|H]; apply last_index_None in H; congruence.
    + rewrite (guard_jacsset_unbound names w Hw Hj). simpl. eauto.
  - rewrite (guard_waterset_unbound names Hw). simpl. eauto.
Qed.

(** Whenever the correction returns, it has done exactly one subtraction. *)
Lemma correct_overlap_Return (res res' : Results) :
  correct_overlap float_sub float_of_int res = Return res' ->
  exists names counts w j a b d,
    res !! "entries" = Some names /\
    res !! "number of compounds" = Some counts /\
    last_index throm_name_waterset names = Some w /\
    last_index throm_name_jacsset names = Some j /\
    counts !! w = Some a /\ counts !! j = Some b /\
    py_sub float_sub float_of_int a b = Return d /\
    res' = <["number of compounds" := <[w := d]> counts]> res.
Proof.
  unfold correct_overlap, getitem.
  destruct (res !! "entries") as [names|] eqn:He; simpl; [| discriminate].
  destruct (last_index throm_name_waterset names) as [w|] eqn:Hw;
    [| rewrite (guard_waterset_unbound names Hw); discriminate].
  destruct (last_index throm_name_jacsset names) as [j|] eqn:Hj;
    [| rewrite (guard_jacsset_unbound names w Hw Hj); discriminate].
  rewrite (guard_found names w j Hw Hj). simpl.
  unfold subtract_overlap, getitem.
  destruct (res !! "number of compounds") as [counts|] eqn:Hc; simpl; [| discriminate].
  rewrite scan_entries_waterset, scan_entries_jacsset, Hw, Hj. simpl.
  destruct (counts !! w) as [a|] eqn:Ha; simpl; [| discriminate].
  destruct (counts !! j) as [b|] eqn:Hb; simpl; [| discriminate].
  destruct (py_sub float_sub float_of_int a b) as [d|] eqn:Hd; simpl; [| discriminate].
  destruct (decide (w < length counts)%nat); simpl; [| discriminate].
  intros [= <-]. exists names, counts, w, j, a, b, d. repeat split; assumption.
Qed.

End Correction.

(** ** The table loop and the report *)

Section Tables.

Context {Stat Diffs FS : Type}.
Context {os : OS FS} {af : AF Stat Diffs FS}.

Local Abbreviation Results := (gmap string (list (@pyval Stat))).

Lemma latex_loop_cons (a : Args) (entry : string) (rest : list string) (fs : FS) :
  latex_loop (Stat := Stat) a (entry :: rest) fs =
  if os_isdir fs entry
  then match os_glob fs (files_pattern a entry) with
       | [] => after [Isdir entry; Glob (files_pattern a entry)]
                     (latex_loop a rest fs)
       | f :: fs' =>
           let files := f :: fs' in
           let t := af_print_latex_table files fs in
           match snd t with
           | Raise e =>
               Run (fst t)
                   [Isdir entry; Glob (files_pattern a entry); Print entry;
                    Print_latex_table files]
                   (Raise e)
           | Return _ =>
               after [Isdir entry; Glob (files_pattern a entry); Print entry;
                      Print_latex_table files; Print EmptyString; Print EmptyString]
                     (latex_loop a rest (fst t))
           end
       end
  else after [Isdir entry] (latex_loop a rest fs).
Proof.
  cbn [latex_loop]. unfold after, bind, isdir, glob, print, ret, print_latex_table, call.
  cbn [result events fs_after].
  destruct (os_isdir fs entry); cbn [result events fs_after].
  - destruct (os_glob fs (files_pattern a entry)) as [|f fs'];
      cbn [length Nat.leb result events fs_after].
    + destruct (result (latex_loop a rest fs)); reflexivity.
    + destruct (snd (af_print_latex_table (f :: fs') fs)) as [[]|e];
        cbn [result events fs_after]; [| reflexivity].
      destruct (result (latex_loop a rest (af_print_latex_table (f :: fs') fs).1));
        reflexivity.
  - destruct (result (latex_loop a rest fs)); reflexivity.
Qed.

Lemma latex_loop_kinds (a : Args) (entries : list string) (fs : FS) :
  Forall (fun e => is_table_event e = true)
         (events (latex_loop (Stat := Stat) a entries fs)).
Proof.
  revert fs. induction entries as [|entry rest IH]; intros fs.
  - constructor.
  - rewrite latex_loop_cons.
    destruct (os_isdir fs entry).
    + destruct (os_glob fs (files_pattern a entry)) as [|f fs'].
      * cbn. repeat constructor. apply IH.
      * cbn zeta. destruct (snd (af_print_latex_table (f :: fs') fs)) as [[]|e].
        -- cbn. repeat constructor. apply IH.
        -- cbn. repeat constructor.
    + cbn. repeat constructor. apply IH.
Qed.

Lemma latex_loop_read_only (a : Args) (entries : list string) (fs : FS) :
  (forall files fs0, fst (af_print_latex_table files fs0) = fs0) ->
  fs_after (latex_loop (Stat := Stat) a entries fs) = fs.
Proof.
  intros Hro. induction entries as [|entry rest IH]; [reflexivity |].
  rewrite latex_loop_cons.
  destruct (os_isdir fs entry); [| exact IH].
  destruct (os_glob fs (files_pattern a entry)) as [|f fs']; [exact IH |].
  cbn zeta. rewrite Hro.
  destruct (snd (af_print_latex_table (f :: fs') fs)) as [[]|e]; [exact IH | reflexivity].
Qed.

Lemma latex_loop_completes (a : Args) (entries : list string) (fs : FS) :
  (forall files fs0, fst (af_print_latex_table files fs0) = fs0) ->
  result (latex_loop (Stat := Stat) a entries fs) = Return tt ->
  events (latex_loop (Stat := Stat) a entries fs) = flat_map (table_block fs a) entries.
Proof.
  intros Hro. induction entries as [|entry rest IH]; [reflexivity |].
  rewrite latex_loop_cons. cbn [flat_map]. unfold table_block at 1.
  destruct (os_isdir fs entry).
  - destruct (os_glob fs (files_pattern a entry)) as [|f fs'].
    + cbn. intros H. now rewrite (IH H).
    + cbn zeta. rewrite Hro.
      destruct (snd (af_print_latex_table (f :: fs') fs)) as [[]|e].
      * cbn. intros H. now rewrite (IH H).
      * cbn. discriminate.
  - cbn. intros H. now rewrite (IH H).
Qed.

Lemma latex_section_run (a : Args) (fs : FS) :
  latex_section (Stat := Stat) a fs =
  if latex_tables a && ext_is_fmp a
  then after [Print tables_title; Print tables_rule; Glob (entries_pattern a)]
             (latex_loop a (os_glob fs (entries_pattern a)) fs)
  else if latex_tables a && negb (ext_is_fmp a)
  then Run fs [Print notice] (Return tt)
  else Run fs [] (Return tt).
Proof.
  unfold latex_section.
  destruct (latex_tables a && ext_is_fmp a).
  - unfold after, bind, print, glob. cbn [result events fs_after].
    destruct (result (latex_loop a (os_glob fs (entries_pattern a)) fs)); reflexivity.
  - destruct (latex_tables a && negb (ext_is_fmp a)); reflexivity.
Qed.

Lemma latex_section_kinds (a : Args) (fs : FS) :
  Forall (fun e => is_table_event e = true)
         (events (latex_section (Stat := Stat) a fs)).
Proof.
  rewrite latex_section_run.
  destruct (latex_tables a && ext_is_fmp a).
  - cbn. repeat constructor. apply latex_loop_kinds.
  - destruct (latex_tables a && negb (ext_is_fmp a)); cbn; repeat constructor.
Qed.

Lemma latex_section_read_only (a : Args) (fs : FS) :
  (forall files fs0, fst (af_print_latex_table files fs0) = fs0) ->
  fs_after (latex_section (Stat := Stat) a fs) = fs.
Proof.
  intros Hro. rewrite latex_section_run.
  destruct (latex_tables a && ext_is_fmp a).
  - cbn. now apply latex_loop_read_only.
  - destruct (latex_tables a && negb (ext_is_fmp a)); reflexivity.
Qed.

(** The events of the report: two lines, the call, and then only events of
    the table section. *)
Lemma report_events (a : Args) (res : Results) (fs : FS) :
  exists tail,
    events (report a res fs) =
    Print summary_title :: Print summary_rule :: Summarize_fep_error res :: tail /\
    Forall (fun e => is_table_event e = true) tail.
Proof.
  rewrite report_run. cbn zeta.
  destruct (snd (af_summarize_fep_error res fs)) as [[]|e].
  - eexists. split; [reflexivity |]. constructor; [reflexivity |].
    apply latex_section_kinds.
  - exists []. split; [reflexivity | constructor].
Qed.

Lemma table_events_no_calls (evs : list (event Stat)) :
  Forall (fun e => is_table_event e = true) evs ->
  List.filter is_parse_call evs = [] /\
  List.filter is_summarize_call evs = [] /\
  in_order Summarized evs = true.
Proof.
  induction 1 as [|e evs He _ IH]; [repeat split |].
  destruct IH as (IH1 & IH2 & IH3).
  destruct e; try discriminate; cbn; auto.
Qed.

Lemma collect_events_queries (fs : FS) (a : Args) (entries : list string) :
  Forall (fun e => is_fs_query e = true) (collect_events (Stat := Stat) fs a entries).
Proof.
  induction entries as [|entry rest IH]; [constructor |].
  cbn. constructor; [reflexivity |].
  destruct (os_isdir fs entry); cbn; [constructor; [reflexivity |] |]; exact IH.
Qed.

Lemma collection_trace_queries (fs : FS) (a : Args) :
  Forall (fun e => is_fs_query e = true) (collection_trace (Stat := Stat) fs a).
Proof. constructor; [reflexivity | apply collect_events_queries]. Qed.

Lemma queries_then (pre post : list (event Stat)) :
  Forall (fun e => is_fs_query e = true) pre ->
  List.filter is_parse_call (pre ++ post) = List.filter is_parse_call post /\
  List.filter is_summarize_call (pre ++ post) = List.filter is_summarize_call post /\
  in_order Collecting (pre ++ post) = in_order Collecting post.
Proof.
  induction 1 as [|e pre He _ IH]; [repeat split |].
  destruct IH as (IH1 & IH2 & IH3).
  destruct e; try discriminate; cbn; auto.
Qed.

End Tables.

(** ** The claims about [main] *)

Section Claims.

Context {Stat Diffs FS : Type}.
Variable float_sub : Stat -> Stat -> Stat.
Variable float_of_int : Z -> Stat.
Context {os : OS FS} {af : AF Stat Diffs FS}.

Local Abbreviation Results := (gmap string (list (@pyval Stat))).

(** The events and the end of [main], case by case. *)
Lemma main_cases (a : Args) (fs : FS) :
  (ext a = None /\
   main float_sub float_of_int a fs =
   Run fs (collection_trace fs a) (Raise (PyException (bad_ext_message a)))) \/
  (exists x e,
     ext a = Some x /\
     (snd (af_parse x (collected fs a) fs) = Raise e \/
      exists raw d, snd (af_parse x (collected fs a) fs) = Return (raw, d) /\
                    correct_overlap float_sub float_of_int raw = Raise e) /\
     main float_sub float_of_int a fs =
     Run (fst (af_parse x (collected fs a) fs))
         (collection_trace fs a ++ [parse_event x (collected fs a)]) (Raise e)) \/
  (exists x raw d res,
     ext a = Some x /\
     snd (af_parse x (collected fs a) fs) = Return (raw, d) /\
     correct_overlap float_sub float_of_int raw = Return res /\
     main float_sub float_of_int a fs =
     after (collection_trace fs a ++ [parse_event x (collected fs a)])
           (report a res (fst (af_parse x (collected fs a) fs)))).
Proof.
  destruct (ext a) as [x|] eqn:Hx.
  - right.
    destruct (snd (af_parse x (collected fs a) fs)) as [[raw d]|e] eqn:Hp.
    + destruct (correct_overlap float_sub float_of_int raw) as [res|e] eqn:Hc.
      * right. exists x, raw, d, res. repeat split; try assumption.
        rewrite (main_reports _ _ a x fs raw res d Hx Hp Hc).
        unfold after. cbn zeta. now rewrite <- app_assoc.
      * left. exists x, e. repeat split.
        -- right. now exists raw, d.
        -- now apply (main_correction_raises _ _ a x fs raw d e).
    + left. exists x, e. repeat split.
      * now left.
      * now apply main_parser_raises.
  - left. split; [reflexivity |]. now apply main_no_ext.
Qed.

Lemma parse_calls_of_main (a : Args) (fs : FS) :
  List.filter is_parse_call (events (main float_sub float_of_int a fs)) =
  match ext a with
  | Some x => [parse_event x (collected fs a)]
  | None => []
  end.
Proof.
  destruct (main_cases a fs) as [(Hx & ->) | [(x & e & Hx & _ & ->) |
                                 (x & raw & d & res & Hx & _ & _ & ->)]];
    rewrite Hx; cbn [events after].
  - rewrite <- (app_nil_r (collection_trace fs a)).
    now rewrite (proj1 (queries_then _ [] (collection_trace_queries fs a))).
  - rewrite (proj1 (queries_then _ _ (collection_trace_queries fs a))).
    destruct x; reflexivity.
  - rewrite <- app_assoc.
    rewrite (proj1 (queries_then _ _ (collection_trace_queries fs a))).
    destruct (report_events a res (fst (af_parse x (collected fs a) fs)))
      as (tail & -> & Htail).
    apply table_events_no_calls in Htail. destruct Htail as (Hnp & _ & _).
    destruct x; cbn; now rewrite Hnp.
Qed.

Lemma summarize_calls_of_main (a : Args) (fs : FS) :
  List.filter is_summarize_call (events (main float_sub float_of_int a fs)) =
  match ext a with
  | None => []
  | Some x =>
      match snd (af_parse x (collected fs a) fs) with
      | Raise _ => []
      | Return (raw, _) =>
          match correct_overlap float_sub float_of_int raw with
          | Return res => [Summarize_fep_error res]
          | Raise _ => []
          end
      end
  end.
Proof.
  destruct (main_cases a fs) as [(Hx & ->) | [(x & e & Hx & Hwhy & ->) |
                                 (x & raw & d & res & Hx & Hp & Hc & ->)]];
    rewrite Hx; cbn [events after].
  - rewrite <- (app_nil_r (collection_trace fs a)).
    now rewrite (proj1 (proj2 (queries_then _ [] (collection_trace_queries fs a)))).
  - rewrite (proj1 (proj2 (queries_then _ _ (collection_trace_queries fs a)))).
    destruct Hwhy as [-> | (raw & d & -> & ->)]; destruct x; reflexivity.
  - rewrite <- app_assoc, Hp, Hc.
    rewrite (proj1 (proj2 (queries_then _ _ (collection_trace_queries fs a)))).
    destruct (report_events a res (fst (af_parse x (collected fs a) fs)))
      as (tail & -> & Htail).
    apply table_events_no_calls in Htail. destruct Htail as (_ & Hns & _).
    destruct x; cbn; now rewrite Hns.
Qed.



(** A run that returns has passed all four steps. *)
Lemma main_completes (a : Args) (fs : FS) :
  result (main float_sub float_of_int a fs) = Return tt ->
  exists x raw d res,
    let fs1 := fst (af_parse x (collected fs a) fs) in
    let fs2 := fst (af_summarize_fep_error res fs1) in
    ext a = Some x /\
    snd (af_parse x (collected fs a) fs) = Return (raw, d) /\
    correct_overlap float_sub float_of_int raw = Return res /\
    main float_sub float_of_int a fs =
    after (collection_trace fs a ++
           [parse_event x (collected fs a); Print summary_title;
            Print summary_rule; Summarize_fep_error res; Print EmptyString])
          (latex_section a fs2).
Proof.
  destruct (main_cases a fs) as [(Hx & ->) | [(x & e & Hx & _ & ->) |
                                 (x & raw & d & res & Hx & Hp & Hc & ->)]];
    cbn [result after]; try discriminate.
  rewrite report_run. cbn zeta.
  destruct (snd (af_summarize_fep_error res (fst (af_parse x (collected fs a) fs))))
    as [[]|e]; cbn [result]; [| discriminate].
  intros _. exists x, raw, d, res. cbn zeta. repeat split; try assumption.
  unfold after. cbn [fs_after events result]. f_equal.
  rewrite <- !app_assoc. reflexivity.
Qed.

(** C9.  When [-e] is omitted, [main] globs [upper_dir/*], asks of every
    match whether it is a directory, globs [entry/*None] in each directory,
    and then raises the exception with the message about accessible file
    extensions: every event of the run is a directory query, so nothing is
    parsed, corrected or printed, and the file system is left as it was. *)
Theorem no_extension_raises_after_collecting (a : Args) (fs : FS) :
  ext a = None ->
  main float_sub float_of_int a fs =
  Run fs
      (Glob (upper_dir a +:+ "/*") ::
       flat_map (fun entry =>
                   Isdir entry ::
                   if os_isdir fs entry then [Glob (entry +:+ "/*None")] else [])
                (os_glob fs (upper_dir a +:+ "/*")))
      (Raise (PyException
                ("Only " +:+ dquote +:+ "fmp" +:+ dquote +:+ " and " +:+ dquote
                 +:+ "csv" +:+ dquote
                 +:+ " are accessible file extenstions. You have entered None.")))
  /\ Forall (fun e => is_fs_query e = true)
            (events (main float_sub float_of_int a fs)).
Proof.
  intros Hx. rewrite (main_no_ext _ _ a fs Hx). split.
  - unfold collection_trace, collect_events, entries_pattern, files_pattern,
      bad_ext_message. rewrite Hx. reflexivity.
  - apply collection_trace_queries.
Qed.



(** C8.  When the functions of [analysis_functions] leave the file system
    as they found it, so does [main], however the run ends: its own steps
    only query directories and print. *)
Theorem main_leaves_file_system (a : Args) (fs : FS) :
  af_read_only ->
  fs_after (main float_sub float_of_int a fs) = fs.
Proof.
  intros (Hparse & Hsum & Htab).
  destruct (main_cases a fs) as [(Hx & ->) | [(x & e & Hx & _ & ->) |
                                 (x & raw & d & res & Hx & _ & _ & ->)]];
    cbn [fs_after after]; [reflexivity | apply Hparse |].
  rewrite Hparse, report_run. cbn zeta.
  destruct (snd (af_summarize_fep_error res fs)) as [[]|e];
    cbn [fs_after]; rewrite Hsum; [| reflexivity].
  now apply latex_section_read_only.
Qed.

(** The position of the last element equal to a name, said without
    [last_index]. *)
Lemma last_position (s : string) (names : list (@pyval Stat)) (k : nat) :
  names !! k = Some (PyStr s) ->
  (forall i, (k < i)%nat -> names !! i <> Some (PyStr s)) ->
  last_index s names = Some k.
Proof.
  intros Hk Hlast.
  destruct (last_index_found s names) as [k' Hk'].
  { eapply list_elem_of_lookup_2. exact Hk. }
  pose proof (last_index_is_last s names k' k Hk' Hk) as Hle.
  pose proof (last_index_lookup s names k' Hk') as Hlook.
  destruct (decide (k = k')) as [->|Hne]; [exact Hk' |].
  exfalso. apply (Hlast k'); [lia | exact Hlook].
Qed.

(** C1.  When the parser's dictionary lists both data set names and holds
    an integer count for every entry, the run prints the summary from a
    dictionary in which the count at the water-displacement entry has been
    lowered by the count at the JACS entry, once: the one call to
    [summarize_fep_error] gets the parser's dictionary with that single count
    replaced by the difference of the two counts the parser returned. *)
Theorem overlap_subtracted_once_before_summary
        (a : Args) (fs : FS) (x : Ext) (raw : Results) (d : Diffs)
        (names : list (@pyval Stat)) (ns : list Z) :
  ext a = Some x ->
  snd (af_parse x (collected fs a) fs) = Return (raw, d) ->
  raw !! "entries" = Some names ->
  raw !! "number of compounds" = Some (PyInt <$> ns) ->
  (length names <= length ns)%nat ->
  PyStr throm_name_waterset ∈ names ->
  PyStr throm_name_jacsset ∈ names ->
  exists (w j : nat) (cw cj : Z) (tail : list (event Stat)),
    names !! w = Some (PyStr throm_name_waterset) /\
    names !! j = Some (PyStr throm_name_jacsset) /\
    ns !! w = Some cw /\ ns !! j = Some cj /\
    let corrected :=
      <["number of compounds" := PyInt <$> <[w := cw - cj]> ns]> raw in
    events (main float_sub float_of_int a fs) =
    collection_trace fs a ++
    parse_event x (collected fs a) :: Print summary_title :: Print summary_rule ::
    Summarize_fep_error corrected :: tail /\
    List.filter is_summarize_call (events (main float_sub float_of_int a fs)) =
    [Summarize_fep_error corrected].
Proof.
  intros Hx Hp He Hc Hlen Hw Hj.
  destruct (last_index_found _ _ Hw) as [w Hlw].
  destruct (last_index_found _ _ Hj) as [j Hlj].
  pose proof (last_index_lookup _ _ _ Hlw) as Hnw.
  pose proof (last_index_lookup _ _ _ Hlj) as Hnj.
  destruct (lookup_lt_is_Some_2 ns w) as [cw Hcw].
  { apply lookup_lt_Some in Hnw. lia. }
  destruct (lookup_lt_is_Some_2 ns j) as [cj Hcj].
  { apply lookup_lt_Some in Hnj. lia. }
  assert (Hcorr : correct_overlap float_sub float_of_int raw =
                  Return (<["number of compounds" := PyInt <$> <[w := cw - cj]> ns]> raw)).
  { rewrite list_fmap_insert.
    apply (correct_overlap_found float_sub float_of_int raw names (PyInt <$> ns)
             w j (PyInt cw) (PyInt cj) (PyInt (cw - cj))); try assumption.
    - rewrite list_lookup_fmap, Hcw. reflexivity.
    - rewrite list_lookup_fmap, Hcj. reflexivity.
    - reflexivity. }
  destruct (report_events a
              (<["number of compounds" := PyInt <$> <[w := cw - cj]> ns]> raw)
              (fst (af_parse x (collected fs a) fs))) as (tail & Hrep & _).
  exists w, j, cw, cj, tail. repeat split; try assumption.
  - rewrite (main_reports _ _ a x fs raw _ d Hx Hp Hcorr). cbn [events].
    now rewrite Hrep.
  - rewrite summarize_calls_of_main, Hx, Hp, Hcorr. reflexivity.
Qed.

(** C3.  When the parser's dictionary lacks one of the two data set names
    among its entries, the run ends at the guard with an
    [UnboundLocalError] (a [NameError]) for an index variable, right after
    the parser call and before anything is printed.  And whatever the
    entries are, the guard never evaluates to false, so the correction is
    never passed over in silence. *)
Theorem missing_name_raises_NameError
        (a : Args) (fs : FS) (x : Ext) (raw : Results) (d : Diffs)
        (names : list (@pyval Stat)) :
  ext a = Some x ->
  snd (af_parse x (collected fs a) fs) = Return (raw, d) ->
  raw !! "entries" = Some names ->
  PyStr throm_name_waterset ∉ names \/ PyStr throm_name_jacsset ∉ names ->
  (exists var,
     result (main float_sub float_of_int a fs) = Raise (UnboundLocalError var) /\
     is_NameError (UnboundLocalError var) = true /\
     (var = "throm_name_waterset_ind" \/ var = "throm_name_jacsset_ind")) /\
  events (main float_sub float_of_int a fs) =
  collection_trace fs a ++ [parse_event x (collected fs a)] /\
  (forall others : list (@pyval Stat),
     guard (scan_entries 0 others no_locals) <> Return false).
Proof.
  intros Hx Hp He Hmiss.
  destruct (correct_overlap_missing float_sub float_of_int raw names He Hmiss)
    as (var & Hc & Hvar).
  rewrite (main_correction_raises _ _ a x fs raw d _ Hx Hp Hc). cbn [result events].
  split; [exists var; auto |]. split; [reflexivity |].
  intros others. destruct (guard_cases others) as [-> | (v & ->)]; discriminate.
Qed.

(** C4.  Whenever the correction goes through, the dictionary it leaves
    differs from the parser's in one place only: the list under
    ['number of compounds'] keeps its length and all its elements except the
    one at the index of the water-displacement entry, the list under
    ['entries'] is the same, and so is the value under every other key. *)
Theorem correction_changes_one_count (raw res : Results) :
  correct_overlap float_sub float_of_int raw = Return res ->
  exists (names counts counts' : list (@pyval Stat)) (w : nat),
    raw !! "entries" = Some names /\
    PyStr throm_name_waterset ∈ names /\
    PyStr throm_name_jacsset ∈ names /\
    last_index throm_name_waterset names = Some w /\
    raw !! "number of compounds" = Some counts /\
    res !! "number of compounds" = Some counts' /\
    length counts' = length counts /\
    (forall i : nat, i <> w -> counts' !! i = counts !! i) /\
    res !! "entries" = Some names /\
    (forall key : string, key <> "number of compounds" -> res !! key = raw !! key).
Proof.
  intros Hc.
  destruct (correct_overlap_Return float_sub float_of_int raw res Hc)
    as (names & counts & w & j & a & b & d & He & Hn & Hw & Hj & Ha & Hb & Hd & ->).
  exists names, counts, (<[w := d]> counts), w.
  repeat split; try assumption.
  - eapply list_elem_of_lookup_2. eapply last_index_lookup. exact Hw.
  - eapply list_elem_of_lookup_2. eapply last_index_lookup. exact Hj.
  - apply lookup_insert_eq.
  - apply length_insert.
  - intros i Hi. apply list_lookup_insert_ne. congruence.
  - rewrite lookup_insert_ne; [exact He | discriminate].
  - intros key Hkey. apply lookup_insert_ne. congruence.
Qed.

(** C10.  With a name occurring several times among the entries, the
    scanning loop leaves in each index variable the position of the name's
    last occurrence, and the correction reads the two counts and writes the
    difference at those positions: positions of earlier occurrences play no
    part. *)
Theorem correction_uses_last_occurrence
        (raw : Results) (names counts : list (@pyval Stat))
        (w j : nat) (cw cj : Z) :
  raw !! "entries" = Some names ->
  raw !! "number of compounds" = Some counts ->
  names !! w = Some (PyStr throm_name_waterset) ->
  (forall i, (w < i)%nat -> names !! i <> Some (PyStr throm_name_waterset)) ->
  names !! j = Some (PyStr throm_name_jacsset) ->
  (forall i, (j < i)%nat -> names !! i <> Some (PyStr throm_name_jacsset)) ->
  counts !! w = Some (PyInt cw) ->
  counts !! j = Some (PyInt cj) ->
  scan_entries 0 names no_locals =
  {| throm_name_waterset_ind := Bound (IInt w);
     throm_name_jacsset_ind := Bound (IInt j) |} /\
  correct_overlap float_sub float_of_int raw =
  Return (<["number of compounds" := <[w := PyInt (cw - cj)]> counts]> raw).
Proof.
  intros He Hc Hw Hwlast Hj Hjlast Hcw Hcj.
  pose proof (last_position _ _ _ Hw Hwlast) as Hlw.
  pose proof (last_position _ _ _ Hj Hjlast) as Hlj.
  split.
  - pose proof (scan_entries_waterset names 0 no_locals) as H1.
    pose proof (scan_entries_jacsset names 0 no_locals) as H2.
    rewrite Hlw in H1. rewrite Hlj in H2.
    destruct (scan_entries 0 names no_locals) as [lw lj].
    cbn in H1, H2. now subst.
  - apply (correct_overlap_found float_sub float_of_int raw names counts
             w j (PyInt cw) (PyInt cj)); try assumption. reflexivity.
Qed.

(** What can stand before the table section in a run that returns. *)
Lemma in_summary_part (a : Args) (fs : FS) (x : Ext) (res : Results)
      (e : event Stat) :
  In e (collection_trace fs a ++
        [parse_event x (collected fs a); Print summary_title;
         Print summary_rule; Summarize_fep_error res; Print EmptyString]) ->
  is_fs_query e = true \/ is_parse_call e = true \/ is_summarize_call e = true \/
  e = Print summary_title \/ e = Print summary_rule \/ e = Print EmptyString.
Proof.
  intros H. apply in_app_or in H. destruct H as [H|H].
  - left. pose proof (collection_trace_queries (Stat := Stat) fs a) as Hq.
    rewrite Forall_forall in Hq. apply Hq. now apply list_elem_of_In.
  - cbn in H. destruct H as [<-|[<-|[<-|[<-|[<-|[]]]]]]; auto 10.
    right. left. destruct x; reflexivity.
Qed.

Lemma ext_is_fmp_true (a : Args) : ext_is_fmp a = true <-> ext a = Some fmp.
Proof.
  unfold ext_is_fmp. destruct (ext a) as [[]|]; split; congruence.
Qed.

(** C6, as the code has it.  In a run that returns: the title of the table
    section is printed exactly when [--latex_tables] is given and the
    extension is [fmp]; [print_latex_table] is called only then; and when
    [--latex_tables] is given with another extension, that extension is
    [csv], the run ends with the one notice line, printed nowhere before,
    and [print_latex_table] is never called. *)
Theorem tables_or_notice_when_run_returns (a : Args) (fs : FS) :
  result (main float_sub float_of_int a fs) = Return tt ->
  let evs := events (main float_sub float_of_int a fs) in
  (In (Print tables_title) evs <-> latex_tables a = true /\ ext a = Some fmp) /\
  ((exists files, In (Print_latex_table files) evs) ->
   latex_tables a = true /\ ext a = Some fmp) /\
  (latex_tables a = true -> ext a <> Some fmp ->
   ext a = Some csv /\
   (exists before, evs = before ++ [Print notice] /\ ~ In (Print notice) before) /\
   (forall files, ~ In (Print_latex_table files) evs)).
Proof.
  intros Hret.
  destruct (main_completes a fs Hret) as (x & raw & d & res & Hx & Hp & Hc & Hmain).
  cbn zeta in Hmain. cbn zeta. rewrite Hmain. cbn [events after].
  set (fs2 := fst (af_summarize_fep_error res (fst (af_parse x (collected fs a) fs)))).
  set (before := collection_trace fs a ++ _).
  assert (Hbefore : forall e, In e before ->
            e <> Print tables_title /\ e <> Print notice /\
            forall files, e <> Print_latex_table files).
  { intros e He. apply in_summary_part in He.
    destruct He as [He | [He | [He | [-> | [-> | ->]]]]];
      (split; [| split; [| intros files]]);
      intros H; first [discriminate H | rewrite H in He; discriminate He]. }
  rewrite latex_section_run.
  destruct (latex_tables a) eqn:Hl; cbn [andb].
  - destruct (ext_is_fmp a) eqn:Hf; cbn [negb events after].
    + apply ext_is_fmp_true in Hf. split; [| split].
      * split; [auto |]. intros _. apply in_or_app. right. now left.
      * auto.
      * intros _ Hne. contradiction.
    + assert (Hnf : ext a <> Some fmp).
      { intros H. apply ext_is_fmp_true in H. congruence. }
      split; [| split].
      * split; [| intros [_ H]; contradiction].
        intros H. apply in_app_or in H. destruct H as [H|[H|[]]].
        -- now apply Hbefore in H.
        -- discriminate.
      * intros (files & H). apply in_app_or in H. destruct H as [H|[H|[]]].
        -- exfalso. apply Hbefore in H. destruct H as (_ & _ & H). now apply (H files).
        -- discriminate.
      * intros _ _. split; [| split].
        -- rewrite Hx in *. destruct x; [contradiction | reflexivity].
        -- exists before. split; [reflexivity |].
           intros H. apply Hbefore in H. now destruct H as (_ & H & _).
        -- intros files H. apply in_app_or in H. destruct H as [H|[H|[]]].
           ++ apply Hbefore in H. destruct H as (_ & _ & H). now apply (H files).
           ++ discriminate.
  - cbn [events]. rewrite app_nil_r. split; [| split].
    + split; [| intros [H _]; discriminate].
      intros H. now apply Hbefore in H.
    + intros (files & H). exfalso. apply Hbefore in H.
      destruct H as (_ & _ & H). now apply (H files).
    + discriminate.
Qed.


End Claims.

(** ** The theorems at work on the fixture *)

Import Fixture.

Lemma toy_af_read_only : @af_read_only unit unit tree toy_af.
Proof. repeat split; intros; try destruct x; reflexivity. Qed.

(** No [-e] on the fixture tree: three globs with [*None], then the
    exception. *)
Lemma no_extension_raises_after_collecting_witness :
  ext args_no_ext = None /\
  main toy_sub toy_of_int args_no_ext bench =
  Run bench
      (Glob (upper_dir args_no_ext +:+ "/*") ::
       flat_map (fun entry =>
                   Isdir entry ::
                   if os_isdir bench entry then [Glob (entry +:+ "/*None")] else [])
                (os_glob bench (upper_dir args_no_ext +:+ "/*")))
      (Raise (PyException
                ("Only " +:+ dquote +:+ "fmp" +:+ dquote +:+ " and " +:+ dquote
                 +:+ "csv" +:+ dquote
                 +:+ " are accessible file extenstions. You have entered None."))).
Proof.
  split; [reflexivity |].
  apply (no_extension_raises_after_collecting
           toy_sub toy_of_int (os := tree_os) (af := toy_af) args_no_ext bench).
  reflexivity.
Defined.

Lemma main_leaves_file_system_witness :
  fs_after (toy_main args_fmp_tables bench) = bench.
Proof.
  apply (main_leaves_file_system toy_sub toy_of_int (os := tree_os) (af := toy_af)
           args_fmp_tables bench).
  repeat split; intros; try destruct x; reflexivity.
Defined.

(** The FMP run on the fixture tree: 29 compounds in the water set, 17 in
    the JACS set. *)
Lemma overlap_subtracted_once_before_summary_witness :
  exists (w j : nat) (cw cj : Z) (tail : list (event unit)),
    [PyStr "thrombin_core_out"; PyStr "tyk2_out";
     PyStr "throm_nozob_hip75_sbmcorr_out"] !! w
    = Some (PyStr (Stat := unit) throm_name_waterset) /\
    [PyStr "thrombin_core_out"; PyStr "tyk2_out";
     PyStr "throm_nozob_hip75_sbmcorr_out"] !! j
    = Some (PyStr (Stat := unit) throm_name_jacsset) /\
    [17; 8; 29] !! w = Some cw /\ [17; 8; 29] !! j = Some cj /\
    let corrected :=
      <["number of compounds" := PyInt <$> <[w := cw - cj]> [17; 8; 29]]>
        (toy_results (collected bench args_fmp)) in
    events (toy_main args_fmp bench) =
    collection_trace bench args_fmp ++
    parse_event fmp (collected bench args_fmp) :: Print summary_title ::
    Print summary_rule :: Summarize_fep_error corrected :: tail /\
    List.filter is_summarize_call (events (toy_main args_fmp bench)) =
    [Summarize_fep_error corrected].
Proof.
  apply (overlap_subtracted_once_before_summary
           toy_sub toy_of_int (os := tree_os) (af := toy_af) args_fmp bench fmp
           (toy_results (collected bench args_fmp)) tt).
  - reflexivity.
  - reflexivity.
  - vm_compute. reflexivity.
  - vm_compute. reflexivity.
  - simpl. lia.
  - do 2 constructor. vm_compute. constructor.
  - vm_compute. constructor.
Defined.

(** The CSV run on the FMP tree: nothing is collected, the stand-in parser
    returns no entries, and the guard raises. *)
Lemma missing_name_raises_NameError_witness :
  (exists var,
     result (toy_main args_csv_tables bench) = Raise (UnboundLocalError var) /\
     is_NameError (UnboundLocalError var) = true /\
     (var = "throm_name_waterset_ind" \/ var = "throm_name_jacsset_ind")) /\
  events (toy_main args_csv_tables bench) =
  collection_trace bench args_csv_tables ++
  [parse_event csv (collected bench args_csv_tables)] /\
  (forall others : list (@pyval unit),
     guard (scan_entries 0 others no_locals) <> Return false).
Proof.
  apply (missing_name_raises_NameError
           toy_sub toy_of_int (os := tree_os) (af := toy_af) args_csv_tables bench csv
           (toy_results (collected bench args_csv_tables)) tt []).
  - reflexivity.
  - reflexivity.
  - vm_compute. reflexivity.
  - left. apply not_elem_of_nil.
Defined.

Lemma correction_changes_one_count_witness :
  exists (names counts counts' : list (@pyval unit)) (w : nat),
    repeated_results !! "entries" = Some names /\
    PyStr throm_name_waterset ∈ names /\
    PyStr throm_name_jacsset ∈ names /\
    last_index throm_name_waterset names = Some w /\
    repeated_results !! "number of compounds" = Some counts /\
    <["number of compounds" :=
        [PyInt 5; PyInt 3; PyInt 29; PyInt 7; PyInt 11]]> repeated_results
      !! "number of compounds" = Some counts' /\
    length counts' = length counts /\
    (forall i : nat, i <> w -> counts' !! i = counts !! i) /\
    <["number of compounds" :=
        [PyInt 5; PyInt 3; PyInt 29; PyInt 7; PyInt 11]]> repeated_results
      !! "entries" = Some names /\
    (forall key : string,
       key <> "number of compounds" ->
       <["number of compounds" :=
           [PyInt 5; PyInt 3; PyInt 29; PyInt 7; PyInt 11]]> repeated_results
         !! key = repeated_results !! key).
Proof.
  apply (correction_changes_one_count toy_sub toy_of_int repeated_results).
  vm_compute. reflexivity.
Defined.

(** Both names twice: the loop ends on positions 2 and 4, and 40 - 11 is
    written at position 2. *)
Lemma correction_uses_last_occurrence_witness :
  scan_entries 0 repeated_names no_locals =
  {| throm_name_waterset_ind := Bound (IInt 2);
     throm_name_jacsset_ind := Bound (IInt 4) |} /\
  correct_overlap toy_sub toy_of_int repeated_results =
  Return (<["number of compounds" := <[2%nat := PyInt (40 - 11)]> repeated_counts]>
            repeated_results).
Proof.
  apply (correction_uses_last_occurrence
           toy_sub toy_of_int repeated_results repeated_names repeated_counts
           2 4 40 11).
  - vm_compute. reflexivity.
  - vm_compute. reflexivity.
  - reflexivity.
  - intros i Hi. do 5 (destruct i as [|i]; [first [lia | discriminate] |]).
    discriminate.
  - reflexivity.
  - intros i Hi. do 5 (destruct i as [|i]; [first [lia | discriminate] |]).
    discriminate.
  - reflexivity.
  - reflexivity.
Defined.

(** C6 as stated fails when [-e] is omitted: [--latex_tables] is given, the
    extension is not [fmp], and the run raises before the notice line could
    be printed. *)
Lemma notice_not_printed_without_extension :
  latex_tables args_no_ext = true /\
  ext args_no_ext <> Some fmp /\
  result (toy_main args_no_ext bench) <> Return tt /\
  ~ In (Print notice) (events (toy_main args_no_ext bench)).
Proof.
  split; [reflexivity |]. split; [discriminate |]. split; [discriminate |].
  vm_compute. intros H.
  repeat (destruct H as [H|H]; [discriminate H |]). exact H.
Qed.

(** The CSV run with [--latex_tables] on the CSV tree returns, and so ends
    with the notice. *)
Lemma tables_or_notice_when_run_returns_witness :
  let evs := events (toy_main args_csv_tables bench_csv) in
  (In (Print tables_title) evs <->
   latex_tables args_csv_tables = true /\ ext args_csv_tables = Some fmp) /\
  ((exists files, In (Print_latex_table files) evs) ->
   latex_tables args_csv_tables = true /\ ext args_csv_tables = Some fmp) /\
  (latex_tables args_csv_tables = true -> ext args_csv_tables <> Some fmp ->
   ext args_csv_tables = Some csv /\
   (exists before, evs = before ++ [Print notice] /\ ~ In (Print notice) before) /\
   (forall files, ~ In (Print_latex_table files) evs)).
Proof.
  apply (tables_or_notice_when_run_returns
           toy_sub toy_of_int (os := tree_os) (af := toy_af) args_csv_tables bench_csv).
  vm_compute. reflexivity.
Defined.


(** What the table section of that run looks like. *)
Example table_section_of_bench :
  flat_map (table_block (Stat := unit) bench args_fmp_tables)
           (os_glob bench "bench/*") =
  [ Isdir "bench/jacs"; Glob "bench/jacs/*fmp"; Print "bench/jacs";
    Print_latex_table ["bench/jacs/thrombin_core_out.fmp"; "bench/jacs/tyk2_out.fmp"];
    Print EmptyString; Print EmptyString;
    Isdir "bench/water"; Glob "bench/water/*fmp"; Print "bench/water";
    Print_latex_table ["bench/water/throm_nozob_hip75_sbmcorr_out.fmp"];
    Print EmptyString; Print EmptyString;
    Isdir "bench/notes.fmp";
    Isdir "bench/empty"; Glob "bench/empty/*fmp" ].
Proof. vm_compute. reflexivity. Qed.

(** Neither the stray file at the top nor the file two levels down is
    collected. *)
Example collected_of_bench :
  collected bench args_fmp =
  [ "bench/jacs/thrombin_core_out.fmp"; "bench/jacs/tyk2_out.fmp";
    "bench/water/throm_nozob_hip75_sbmcorr_out.fmp" ].
Proof. vm_compute. reflexivity. Qed.

(** ** Further properties of the correction (lines 86-95) *)

Section CorrectionEdges.

Context {Stat : Type}.
Variable float_sub : Stat -> Stat -> Stat.
Variable float_of_int : Z -> Stat.

Local Abbreviation Results := (gmap string (list (@pyval Stat))).
Local Abbreviation pyval := (@pyval Stat).

Lemma names_differ : throm_name_waterset <> throm_name_jacsset.
Proof. discriminate. Qed.

Lemma last_indices_differ (names : list pyval) (w j : nat) :
  last_index throm_name_waterset names = Some w ->
  last_index throm_name_jacsset names = Some j ->
  w <> j.
Proof.
  intros Hw Hj ->.
  apply last_index_lookup in Hw. apply last_index_lookup in Hj.
  rewrite Hw in Hj. apply names_differ. congruence.
Qed.

(** X1.  Which variable the [UnboundLocalError] names: the water-set index
    whenever the water-set name is missing (also when the JACS name is
    missing too, and whether or not the dictionary has a
    ['number of compounds'] key), the JACS index when only the JACS name is
    missing. *)
Theorem unbound_variable_is_first_missing (raw : Results) (names : list pyval) :
  raw !! "entries" = Some names ->
  (PyStr throm_name_waterset ∉ names ->
   correct_overlap float_sub float_of_int raw =
   Raise (UnboundLocalError "throm_name_waterset_ind")) /\
  (PyStr throm_name_waterset ∈ names ->
   PyStr throm_name_jacsset ∉ names ->
   correct_overlap float_sub float_of_int raw =
   Raise (UnboundLocalError "throm_name_jacsset_ind")).
Proof.
  intros He. unfold correct_overlap, getitem. rewrite He. cbn [obind]. split.
  - intros Hw. apply last_index_None in Hw.
    now rewrite (guard_waterset_unbound names Hw).
  - intros Hw Hj. apply last_index_found in Hw. destruct Hw as [w Hw].
    apply last_index_None in Hj.
    now rewrite (guard_jacsset_unbound names w Hw Hj).
Qed.

(** X2.  The correction leaves the count of the JACS entry as the parser
    returned it: the two indices always differ, so the value subtracted is
    still in the list afterwards. *)
Theorem jacs_count_is_kept (raw res : Results) :
  correct_overlap float_sub float_of_int raw = Return res ->
  exists (names counts counts' : list pyval) (w j : nat),
    raw !! "entries" = Some names /\
    last_index throm_name_waterset names = Some w /\
    last_index throm_name_jacsset names = Some j /\
    w <> j /\
    raw !! "number of compounds" = Some counts /\
    res !! "number of compounds" = Some counts' /\
    counts' !! j = counts !! j.
Proof.
  intros Hc.
  destruct (correct_overlap_Return float_sub float_of_int raw res Hc)
    as (names & counts & w & j & a & b & d & He & Hn & Hw & Hj & Ha & Hb & Hd & ->).
  pose proof (last_indices_differ names w j Hw Hj) as Hne.
  exists names, counts, (<[w := d]> counts), w, j.
  repeat split; try assumption.
  - apply lookup_insert_eq.
  - now apply list_lookup_insert_ne.
Qed.

(** X3.  The correction is not idempotent: run on its own result it
    subtracts the JACS count a second time. *)
Theorem correction_twice_subtracts_twice
        (raw : Results) (names counts : list pyval) (w j : nat) (cw cj : Z) :
  raw !! "entries" = Some names ->
  raw !! "number of compounds" = Some counts ->
  last_index throm_name_waterset names = Some w ->
  last_index throm_name_jacsset names = Some j ->
  counts !! w = Some (PyInt cw) ->
  counts !! j = Some (PyInt cj) ->
  obind (correct_overlap float_sub float_of_int raw)
        (correct_overlap float_sub float_of_int) =
  Return (<["number of compounds" := <[w := PyInt (cw - cj - cj)]> counts]> raw).
Proof.
  intros He Hc Hw Hj Hcw Hcj.
  pose proof (last_indices_differ names w j Hw Hj) as Hne.
  rewrite (correct_overlap_found float_sub float_of_int raw names counts
             w j (PyInt cw) (PyInt cj) (PyInt (cw - cj)) He Hc Hw Hj Hcw Hcj eq_refl).
  cbn [obind].
  rewrite (correct_overlap_found float_sub float_of_int _ names
             (<[w := PyInt (cw - cj)]> counts)
             w j (PyInt (cw - cj)) (PyInt cj) (PyInt (cw - cj - cj))).
  - now rewrite insert_insert_eq, list_insert_insert_eq.
  - rewrite lookup_insert_ne; [exact He | discriminate].
  - apply lookup_insert_eq.
  - exact Hw.
  - exact Hj.
  - apply list_lookup_insert_eq. eapply lookup_lt_Some. exact Hcw.
  - rewrite list_lookup_insert_ne; [exact Hcj | exact Hne].
  - reflexivity.
Qed.

Lemma count_total_insert (counts : list pyval) (i : nat) (old new : Z) :
  counts !! i = Some (PyInt old) ->
  count_total (<[i := PyInt new]> counts) = count_total counts - old + new.
Proof.
  unfold count_total.
  revert i. induction counts as [|v rest IH]; intros i; [discriminate |].
  destruct i as [|i].
  - cbn. intros [= ->]. lia.
  - intros H. specialize (IH i H).
    change (<[S i := PyInt new]> (v :: rest)) with (v :: <[i := PyInt new]> rest).
    cbn [fold_right]. destruct v; rewrite IH; lia.
Qed.

(** X4.  With integer counts at both indices, the correction lowers the sum
    of the integer counts by exactly the JACS count. *)
Theorem correction_lowers_total_by_jacs_count
        (raw res : Results) (names counts : list pyval) (w j : nat) (cw cj : Z) :
  raw !! "entries" = Some names ->
  raw !! "number of compounds" = Some counts ->
  last_index throm_name_waterset names = Some w ->
  last_index throm_name_jacsset names = Some j ->
  counts !! w = Some (PyInt cw) ->
  counts !! j = Some (PyInt cj) ->
  exists counts',
    correct_overlap float_sub float_of_int raw =
    Return (<["number of compounds" := counts']> raw) /\
    count_total counts' = count_total counts - cj.
Proof.
  intros He Hc Hw Hj Hcw Hcj.
  exists (<[w := PyInt (cw - cj)]> counts). split.
  - apply (correct_overlap_found float_sub float_of_int raw names counts
             w j (PyInt cw) (PyInt cj)); try assumption. reflexivity.
  - rewrite (count_total_insert counts w cw (cw - cj) Hcw). lia.
Qed.

(** The ways the correction raises, one by one. *)
Lemma correct_overlap_no_entries (raw : Results) :
  raw !! "entries" = None ->
  correct_overlap float_sub float_of_int raw = Raise (KeyError "entries").
Proof. intros He. unfold correct_overlap, getitem. now rewrite He. Qed.

Lemma correct_overlap_no_counts (raw : Results) (names : list pyval) (w j : nat) :
  raw !! "entries" = Some names ->
  last_index throm_name_waterset names = Some w ->
  last_index throm_name_jacsset names = Some j ->
  raw !! "number of compounds" = None ->
  correct_overlap float_sub float_of_int raw =
  Raise (KeyError "number of compounds").
Proof.
  intros He Hw Hj Hc. unfold correct_overlap, getitem. rewrite He. cbn [obind].
  rewrite (guard_found names w j Hw Hj). cbn [obind].
  unfold subtract_overlap, getitem. now rewrite Hc.
Qed.

Lemma correct_overlap_short_counts (raw : Results) (names counts : list pyval)
      (w j : nat) :
  raw !! "entries" = Some names ->
  last_index throm_name_waterset names = Some w ->
  last_index throm_name_jacsset names = Some j ->
  raw !! "number of compounds" = Some counts ->
  (length counts <= w \/ length counts <= j)%nat ->
  correct_overlap float_sub float_of_int raw = Raise IndexError.
Proof.
  intros He Hw Hj Hc Hshort. unfold correct_overlap, getitem. rewrite He. cbn [obind].
  rewrite (guard_found names w j Hw Hj). cbn [obind].
  unfold subtract_overlap, getitem. rewrite Hc. cbn [obind].
  rewrite scan_entries_waterset, scan_entries_jacsset, Hw, Hj. cbn.
  destruct (counts !! w) as [a|] eqn:Ha; cbn; [| reflexivity].
  destruct (counts !! j) as [b|] eqn:Hb; cbn; [| reflexivity].
  exfalso. apply lookup_lt_Some in Ha. apply lookup_lt_Some in Hb. lia.
Qed.

Lemma correct_overlap_text_count (raw : Results) (names counts : list pyval)
      (w j : nat) (a b : pyval) :
  raw !! "entries" = Some names ->
  last_index throm_name_waterset names = Some w ->
  last_index throm_name_jacsset names = Some j ->
  raw !! "number of compounds" = Some counts ->
  counts !! w = Some a ->
  counts !! j = Some b ->
  (exists s, a = PyStr s) \/ (exists s, b = PyStr s) ->
  correct_overlap float_sub float_of_int raw = Raise TypeError.
Proof.
  intros He Hw Hj Hc Ha Hb Htext. unfold correct_overlap, getitem. rewrite He.
  cbn [obind]. rewrite (guard_found names w j Hw Hj). cbn [obind].
  unfold subtract_overlap, getitem. rewrite Hc. cbn [obind].
  rewrite scan_entries_waterset, scan_entries_jacsset, Hw, Hj. cbn.
  rewrite Ha. cbn. rewrite Hb. cbn.
  destruct Htext as [(s & ->) | (s & ->)]; [reflexivity |].
  destruct a; reflexivity.
Qed.


End CorrectionEdges.

(** ** Further properties of a run of [main] *)

Section RunEdges.

Context {Stat Diffs FS : Type}.
Variable float_sub : Stat -> Stat -> Stat.
Variable float_of_int : Z -> Stat.
Context {os : OS FS} {af : AF Stat Diffs FS}.

Local Abbreviation Results := (gmap string (list (@pyval Stat))).

(** X5.  A dictionary without the key ['entries'] ends the run with
    [KeyError('entries')] right after the parser call: nothing is printed
    and [summarize_fep_error] is not called. *)
Theorem missing_entries_key_raises_KeyError
        (a : Args) (fs : FS) (x : Ext) (raw : Results) (d : Diffs) :
  ext a = Some x ->
  snd (af_parse x (collected fs a) fs) = Return (raw, d) ->
  raw !! "entries" = None ->
  result (main float_sub float_of_int a fs) = Raise (KeyError "entries") /\
  events (main float_sub float_of_int a fs) =
  collection_trace fs a ++ [parse_event x (collected fs a)].
Proof.
  intros Hx Hp He.
  rewrite (main_correction_raises _ _ a x fs raw d _ Hx Hp
             (correct_overlap_no_entries float_sub float_of_int raw He)).
  split; reflexivity.
Qed.

(** X6.  With both names among the entries but no key
    ['number of compounds'], the run ends with
    [KeyError('number of compounds')] right after the parser call. *)
Theorem missing_counts_key_raises_KeyError
        (a : Args) (fs : FS) (x : Ext) (raw : Results) (d : Diffs)
        (names : list (@pyval Stat)) :
  ext a = Some x ->
  snd (af_parse x (collected fs a) fs) = Return (raw, d) ->
  raw !! "entries" = Some names ->
  PyStr throm_name_waterset ∈ names ->
  PyStr throm_name_jacsset ∈ names ->
  raw !! "number of compounds" = None ->
  result (main float_sub float_of_int a fs) =
  Raise (KeyError "number of compounds") /\
  events (main float_sub float_of_int a fs) =
  collection_trace fs a ++ [parse_event x (collected fs a)].
Proof.
  intros Hx Hp He Hw Hj Hc.
  destruct (last_index_found _ _ Hw) as [w Hlw].
  destruct (last_index_found _ _ Hj) as [j Hlj].
  rewrite (main_correction_raises _ _ a x fs raw d _ Hx Hp
             (correct_overlap_no_counts float_sub float_of_int raw names w j
                He Hlw Hlj Hc)).
  split; reflexivity.
Qed.

(** X7.  When the list of counts is too short to hold the last position of
    the water-set name or of the JACS name, the run ends with [IndexError]
    right after the parser call; nothing is printed. *)
Theorem short_counts_raise_IndexError
        (a : Args) (fs : FS) (x : Ext) (raw : Results) (d : Diffs)
        (names counts : list (@pyval Stat)) (w j : nat) :
  ext a = Some x ->
  snd (af_parse x (collected fs a) fs) = Return (raw, d) ->
  raw !! "entries" = Some names ->
  raw !! "number of compounds" = Some counts ->
  last_index throm_name_waterset names = Some w ->
  last_index throm_name_jacsset names = Some j ->
  (length counts <= w \/ length counts <= j)%nat ->
  result (main float_sub float_of_int a fs) = Raise IndexError /\
  events (main float_sub float_of_int a fs) =
  collection_trace fs a ++ [parse_event x (collected fs a)].
Proof.
  intros Hx Hp He Hc Hw Hj Hshort.
  rewrite (main_correction_raises _ _ a x fs raw d _ Hx Hp
             (correct_overlap_short_counts float_sub float_of_int raw names counts
                w j He Hw Hj Hc Hshort)).
  split; reflexivity.
Qed.

(** X8.  When one of the two counts the correction reads is a string, the
    run ends with [TypeError] right after the parser call. *)
Theorem text_count_raises_TypeError
        (a : Args) (fs : FS) (x : Ext) (raw : Results) (d : Diffs)
        (names counts : list (@pyval Stat)) (w j : nat) (cw cj : @pyval Stat) :
  ext a = Some x ->
  snd (af_parse x (collected fs a) fs) = Return (raw, d) ->
  raw !! "entries" = Some names ->
  raw !! "number of compounds" = Some counts ->
  last_index throm_name_waterset names = Some w ->
  last_index throm_name_jacsset names = Some j ->
  counts !! w = Some cw ->
  counts !! j = Some cj ->
  (exists s, cw = PyStr s) \/ (exists s, cj = PyStr s) ->
  result (main float_sub float_of_int a fs) = Raise TypeError /\
  events (main float_sub float_of_int a fs) =
  collection_trace fs a ++ [parse_event x (collected fs a)].
Proof.
  intros Hx Hp He Hc Hw Hj Hcw Hcj Htext.
  rewrite (main_correction_raises _ _ a x fs raw d _ Hx Hp
             (correct_overlap_text_count float_sub float_of_int raw names counts
                w j cw cj He Hw Hj Hc Hcw Hcj Htext)).
  split; reflexivity.
Qed.

(** X9.  An exception of the parser ends the run as it is: [main] catches
    nothing, prints nothing and calls nothing after it. *)
Theorem parser_exception_propagates (a : Args) (fs : FS) (x : Ext) (e : exn) :
  ext a = Some x ->
  snd (af_parse x (collected fs a) fs) = Raise e ->
  result (main float_sub float_of_int a fs) = Raise e /\
  events (main float_sub float_of_int a fs) =
  collection_trace fs a ++ [parse_event x (collected fs a)].
Proof.
  intros Hx Hp. rewrite (main_parser_raises _ _ a x fs e Hx Hp).
  split; reflexivity.
Qed.

(** X10.  An exception of [summarize_fep_error] ends the run after the two
    summary lines: the blank line and the table section do not follow. *)
Theorem summarize_exception_ends_run
        (a : Args) (fs : FS) (x : Ext) (raw res : Results) (d : Diffs) (e : exn) :
  ext a = Some x ->
  snd (af_parse x (collected fs a) fs) = Return (raw, d) ->
  correct_overlap float_sub float_of_int raw = Return res ->
  snd (af_summarize_fep_error res (fst (af_parse x (collected fs a) fs))) = Raise e ->
  result (main float_sub float_of_int a fs) = Raise e /\
  events (main float_sub float_of_int a fs) =
  collection_trace fs a ++
  [parse_event x (collected fs a); Print summary_title; Print summary_rule;
   Summarize_fep_error res].
Proof.
  intros Hx Hp Hc Hs.
  rewrite (main_reports _ _ a x fs raw res d Hx Hp Hc). cbn zeta.
  rewrite report_run. cbn zeta. rewrite Hs. split; reflexivity.
Qed.



Lemma table_files_app (evs1 evs2 : list (event Stat)) :
  table_files (evs1 ++ evs2) = table_files evs1 ++ table_files evs2.
Proof. unfold table_files. apply flat_map_app. Qed.

Lemma table_files_queries (evs : list (event Stat)) :
  Forall (fun e => is_fs_query e = true) evs -> table_files evs = [].
Proof.
  induction 1 as [|e evs He _ IH]; [reflexivity |].
  destruct e; try discriminate; exact IH.
Qed.

Lemma table_files_blocks (fs : FS) (a : Args) (entries : list string) :
  table_files (flat_map (table_block (Stat := Stat) fs a) entries) =
  flat_map (fun entry =>
              if os_isdir fs entry then os_glob fs (files_pattern a entry) else [])
           entries.
Proof.
  induction entries as [|entry rest IH]; [reflexivity |].
  cbn [flat_map]. rewrite table_files_app, IH. f_equal.
  unfold table_block. destruct (os_isdir fs entry); [| reflexivity].
  destruct (os_glob fs (files_pattern a entry)); [reflexivity |].
  cbn. now rewrite app_nil_r.
Qed.

Lemma table_files_summary_part (a : Args) (fs : FS) (x : Ext) (res : Results) :
  table_files
    (collection_trace fs a ++
     [parse_event x (collected fs a); Print summary_title;
      Print summary_rule; Summarize_fep_error res; Print EmptyString]) = [].
Proof.
  rewrite table_files_app, (table_files_queries _ (collection_trace_queries fs a)).
  destruct x; reflexivity.
Qed.

(** X12.  In a run with [--latex_tables] and [fmp] that returns, with
    collaborators that leave the file system alone, the files of the tables
    are, in order, exactly the files the parser was given: every parsed file
    is in one table and the tables hold nothing else. *)
Theorem tables_cover_collected_files (a : Args) (fs : FS) :
  af_read_only ->
  latex_tables a = true ->
  ext a = Some fmp ->
  result (main float_sub float_of_int a fs) = Return tt ->
  table_files (events (main float_sub float_of_int a fs)) = collected fs a /\
  List.filter is_parse_call (events (main float_sub float_of_int a fs)) =
  [Parse_fep_data (collected fs a)].
Proof.
  intros (Hparse & Hsum & Htab) Hl Hf Hret. split.
  - destruct (main_completes float_sub float_of_int a fs Hret)
      as (x & raw & d & res & Hx & Hp & Hc & Hmain).
    cbn zeta in Hmain. rewrite Hparse, Hsum in Hmain.
    rewrite Hmain in Hret |- *. cbn [events result after] in *.
    rewrite latex_section_run in Hret |- *.
    apply ext_is_fmp_true in Hf. rewrite Hl, Hf in Hret |- *.
    cbn [andb events result after] in *.
    rewrite (latex_loop_completes a _ fs Htab Hret).
    rewrite table_files_app, table_files_summary_part. cbn [app].
    change (table_files (?p :: ?q :: ?g :: ?l)) with (table_files l).
    apply table_files_blocks.
  - rewrite (parse_calls_of_main float_sub float_of_int), Hf. reflexivity.
Qed.

(** X13.  Unless [--latex_tables] is given with [fmp], no run, returning
    or raising, calls [print_latex_table]. *)
Theorem no_table_call_without_flag_and_fmp (a : Args) (fs : FS) :
  latex_tables a && ext_is_fmp a = false ->
  List.filter is_table_call (events (main float_sub float_of_int a fs)) = [].
Proof.
  intros Hoff.
  assert (Hq : forall evs : list (event Stat),
             Forall (fun e => is_fs_query e = true) evs ->
             List.filter is_table_call evs = []).
  { induction 1 as [|e evs He _ IH]; [reflexivity |].
    destruct e; try discriminate; exact IH. }
  destruct (main_cases float_sub float_of_int a fs) as [(Hx & ->) | [(x & e & Hx & _ & ->) |
                                     (x & raw & d & res & Hx & _ & _ & ->)]];
    cbn [events after]; rewrite ?List.filter_app,
      (Hq _ (collection_trace_queries fs a)).
  - reflexivity.
  - destruct x; reflexivity.
  - rewrite report_run. cbn zeta.
    destruct (snd (af_summarize_fep_error res (fst (af_parse x (collected fs a) fs))))
      as [[]|e]; cbn [events]; [| destruct x; reflexivity].
    rewrite latex_section_run, Hoff.
    destruct (latex_tables a && negb (ext_is_fmp a)); destruct x; reflexivity.
Qed.



(** X15.  When no match of [upper_dir/*] is a directory (an empty or
    missing directory, or one holding the result files themselves), nothing
    is collected, and the parser is still called, with the empty list. *)
Theorem no_directories_parser_gets_empty_list (a : Args) (fs : FS) (x : Ext) :
  ext a = Some x ->
  Forall (fun entry => os_isdir fs entry = false) (os_glob fs (upper_dir a +:+ "/*")) ->
  collected fs a = [] /\
  List.filter is_parse_call (events (main float_sub float_of_int a fs)) =
  [parse_event x []].
Proof.
  intros Hx Hnone.
  assert (Hcol : collected fs a = []).
  { unfold collected, entries_pattern.
    induction Hnone as [|entry rest Hd _ IH]; [reflexivity |].
    cbn [flat_map]. now rewrite Hd, IH. }
  split; [exact Hcol |].
  now rewrite (parse_calls_of_main float_sub float_of_int), Hx, Hcol.
Qed.

(** X16.  Without [--latex_tables], a run that returns ends with the blank
    line after the summary: the directory is not scanned a second time and
    nothing more is printed. *)
Theorem without_flag_run_ends_after_summary (a : Args) (fs : FS) :
  latex_tables a = false ->
  result (main float_sub float_of_int a fs) = Return tt ->
  exists x res,
    ext a = Some x /\
    events (main float_sub float_of_int a fs) =
    collection_trace fs a ++
    [parse_event x (collected fs a); Print summary_title; Print summary_rule;
     Summarize_fep_error res; Print EmptyString].
Proof.
  intros Hl Hret.
  destruct (main_completes float_sub float_of_int a fs Hret)
    as (x & raw & d & res & Hx & Hp & Hc & Hmain).
  cbn zeta in Hmain. exists x, res. split; [exact Hx |].
  rewrite Hmain. cbn [events after]. rewrite latex_section_run, Hl.
  cbn [andb events]. now rewrite app_nil_r.
Qed.

End RunEdges.

(** ** The further properties at work on the fixture *)

Lemma unbound_variable_is_first_missing_witness :
  (PyStr throm_name_waterset ∉ [PyStr (Stat := unit) throm_name_waterset; PyStr "tyk2_out"] ->
   correct_overlap toy_sub toy_of_int only_water_results =
   Raise (UnboundLocalError "throm_name_waterset_ind")) /\
  (PyStr throm_name_waterset ∈ [PyStr (Stat := unit) throm_name_waterset; PyStr "tyk2_out"] ->
   PyStr throm_name_jacsset ∉ [PyStr (Stat := unit) throm_name_waterset; PyStr "tyk2_out"] ->
   correct_overlap toy_sub toy_of_int only_water_results =
   Raise (UnboundLocalError "throm_name_jacsset_ind")).
Proof.
  apply (unbound_variable_is_first_missing toy_sub toy_of_int only_water_results).
  vm_compute. reflexivity.
Defined.

Lemma jacs_count_is_kept_witness :
  exists (names counts counts' : list (@pyval unit)) (w j : nat),
    repeated_results !! "entries" = Some names /\
    last_index throm_name_waterset names = Some w /\
    last_index throm_name_jacsset names = Some j /\
    w <> j /\
    repeated_results !! "number of compounds" = Some counts /\
    <["number of compounds" :=
        [PyInt 5; PyInt 3; PyInt 29; PyInt 7; PyInt 11]]> repeated_results
      !! "number of compounds" = Some counts' /\
    counts' !! j = counts !! j.
Proof.
  apply (jacs_count_is_kept toy_sub toy_of_int repeated_results).
  vm_compute. reflexivity.
Defined.

Lemma correction_twice_subtracts_twice_witness :
  obind (correct_overlap toy_sub toy_of_int repeated_results)
        (correct_overlap toy_sub toy_of_int) =
  Return (<["number of compounds" := <[2%nat := PyInt (40 - 11 - 11)]> repeated_counts]>
            repeated_results).
Proof.
  apply (correction_twice_subtracts_twice toy_sub toy_of_int
           repeated_results repeated_names repeated_counts 2 4 40 11);
    vm_compute; reflexivity.
Defined.

Lemma correction_lowers_total_by_jacs_count_witness :
  exists counts',
    correct_overlap toy_sub toy_of_int repeated_results =
    Return (<["number of compounds" := counts']> repeated_results) /\
    count_total counts' = count_total repeated_counts - 11.
Proof.
  apply (correction_lowers_total_by_jacs_count toy_sub toy_of_int
           repeated_results repeated_results repeated_names repeated_counts
           2 4 40 11);
    vm_compute; reflexivity.
Defined.

Lemma missing_entries_key_raises_KeyError_witness :
  result (main toy_sub toy_of_int
            (af := scripted_af (Return (no_entries_results, tt)) (Return tt) (Return tt))
            args_fmp bench) = Raise (KeyError "entries") /\
  events (main toy_sub toy_of_int
            (af := scripted_af (Return (no_entries_results, tt)) (Return tt) (Return tt))
            args_fmp bench) =
  collection_trace bench args_fmp ++ [parse_event fmp (collected bench args_fmp)].
Proof.
  apply (missing_entries_key_raises_KeyError toy_sub toy_of_int
           (af := scripted_af (Return (no_entries_results, tt)) (Return tt) (Return tt))
           args_fmp bench fmp no_entries_results tt).
  - reflexivity.
  - reflexivity.
  - vm_compute. reflexivity.
Defined.

Lemma missing_counts_key_raises_KeyError_witness :
  result (main toy_sub toy_of_int
            (af := scripted_af (Return (no_counts_results, tt)) (Return tt) (Return tt))
            args_fmp bench) = Raise (KeyError "number of compounds") /\
  events (main toy_sub toy_of_int
            (af := scripted_af (Return (no_counts_results, tt)) (Return tt) (Return tt))
            args_fmp bench) =
  collection_trace bench args_fmp ++ [parse_event fmp (collected bench args_fmp)].
Proof.
  apply (missing_counts_key_raises_KeyError toy_sub toy_of_int
           (af := scripted_af (Return (no_counts_results, tt)) (Return tt) (Return tt))
           args_fmp bench fmp no_counts_results tt repeated_names).
  - reflexivity.
  - reflexivity.
  - vm_compute. reflexivity.
  - constructor.
  - do 2 constructor.
  - vm_compute. reflexivity.
Defined.

Lemma short_counts_raise_IndexError_witness :
  result (main toy_sub toy_of_int
            (af := scripted_af (Return (short_counts_results, tt)) (Return tt) (Return tt))
            args_fmp bench) = Raise IndexError /\
  events (main toy_sub toy_of_int
            (af := scripted_af (Return (short_counts_results, tt)) (Return tt) (Return tt))
            args_fmp bench) =
  collection_trace bench args_fmp ++ [parse_event fmp (collected bench args_fmp)].
Proof.
  apply (short_counts_raise_IndexError toy_sub toy_of_int
           (af := scripted_af (Return (short_counts_results, tt)) (Return tt) (Return tt))
           args_fmp bench fmp short_counts_results tt repeated_names
           [PyInt 5; PyInt 3; PyInt 40] 2 4).
  - reflexivity.
  - reflexivity.
  - vm_compute. reflexivity.
  - vm_compute. reflexivity.
  - reflexivity.
  - reflexivity.
  - right. simpl. lia.
Defined.

Lemma text_count_raises_TypeError_witness :
  result (main toy_sub toy_of_int
            (af := scripted_af (Return (text_counts_results, tt)) (Return tt) (Return tt))
            args_fmp bench) = Raise TypeError /\
  events (main toy_sub toy_of_int
            (af := scripted_af (Return (text_counts_results, tt)) (Return tt) (Return tt))
            args_fmp bench) =
  collection_trace bench args_fmp ++ [parse_event fmp (collected bench args_fmp)].
Proof.
  apply (text_count_raises_TypeError toy_sub toy_of_int
           (af := scripted_af (Return (text_counts_results, tt)) (Return tt) (Return tt))
           args_fmp bench fmp text_counts_results tt repeated_names
           [PyInt 5; PyInt 3; PyInt 40; PyInt 7; PyStr "eleven"] 2 4
           (PyInt 40) (PyStr "eleven")).
  - reflexivity.
  - reflexivity.
  - vm_compute. reflexivity.
  - vm_compute. reflexivity.
  - reflexivity.
  - reflexivity.
  - reflexivity.
  - reflexivity.
  - right. now exists "eleven".
Defined.

Lemma parser_exception_propagates_witness :
  result (main toy_sub toy_of_int
            (af := scripted_af (Raise (CollaboratorError "parse")) (Return tt) (Return tt))
            args_fmp bench) = Raise (CollaboratorError "parse") /\
  events (main toy_sub toy_of_int
            (af := scripted_af (Raise (CollaboratorError "parse")) (Return tt) (Return tt))
            args_fmp bench) =
  collection_trace bench args_fmp ++ [parse_event fmp (collected bench args_fmp)].
Proof.
  apply (parser_exception_propagates toy_sub toy_of_int
           (af := scripted_af (Raise (CollaboratorError "parse")) (Return tt) (Return tt))
           args_fmp bench fmp); reflexivity.
Defined.

Lemma summarize_exception_ends_run_witness :
  result (main toy_sub toy_of_int
            (af := scripted_af (Return (repeated_results, tt))
                     (Raise (CollaboratorError "summarize")) (Return tt))
            args_fmp_tables bench) = Raise (CollaboratorError "summarize") /\
  events (main toy_sub toy_of_int
            (af := scripted_af (Return (repeated_results, tt))
                     (Raise (CollaboratorError "summarize")) (Return tt))
            args_fmp_tables bench) =
  collection_trace bench args_fmp_tables ++
  [parse_event fmp (collected bench args_fmp_tables); Print summary_title;
   Print summary_rule;
   Summarize_fep_error
     (<["number of compounds" := <[2%nat := PyInt 29]> repeated_counts]>
        repeated_results)].
Proof.
  apply (summarize_exception_ends_run toy_sub toy_of_int
           (af := scripted_af (Return (repeated_results, tt))
                    (Raise (CollaboratorError "summarize")) (Return tt))
           args_fmp_tables bench fmp repeated_results _ tt).
  - reflexivity.
  - reflexivity.
  - vm_compute. reflexivity.
  - reflexivity.
Defined.


Lemma tables_cover_collected_files_witness :
  table_files (events (toy_main args_fmp_tables bench)) =
  collected bench args_fmp_tables /\
  List.filter is_parse_call (events (toy_main args_fmp_tables bench)) =
  [Parse_fep_data (collected bench args_fmp_tables)].
Proof.
  apply (tables_cover_collected_files toy_sub toy_of_int (os := tree_os) (af := toy_af)
           args_fmp_tables bench).
  - repeat split; intros; try destruct x; reflexivity.
  - reflexivity.
  - reflexivity.
  - vm_compute. reflexivity.
Defined.

Lemma no_table_call_without_flag_and_fmp_witness :
  List.filter is_table_call (events (toy_main args_csv_tables bench_csv)) = [].
Proof.
  apply (no_table_call_without_flag_and_fmp toy_sub toy_of_int
           (os := tree_os) (af := toy_af) args_csv_tables bench_csv).
  reflexivity.
Defined.


Lemma no_directories_parser_gets_empty_list_witness :
  collected loose_files args_fmp = [] /\
  List.filter is_parse_call (events (toy_main args_fmp loose_files)) =
  [parse_event fmp []].
Proof.
  apply (no_directories_parser_gets_empty_list toy_sub toy_of_int
           (os := tree_os) (af := toy_af) args_fmp loose_files fmp).
  - reflexivity.
  - vm_compute. repeat constructor.
Defined.

Lemma without_flag_run_ends_after_summary_witness :
  exists x res,
    ext args_fmp = Some x /\
    events (toy_main args_fmp bench) =
    collection_trace bench args_fmp ++
    [parse_event x (collected bench args_fmp); Print summary_title;
     Print summary_rule; Summarize_fep_error res; Print EmptyString].
Proof.
  apply (without_flag_run_ends_after_summary toy_sub toy_of_int
           (os := tree_os) (af := toy_af) args_fmp bench).
  - reflexivity.
  - vm_compute. reflexivity.
Defined.
